(** * andreyvit/assert: the assertion helpers, embedded and verified

    The package is a flat set of assertion functions over an injected
    reporting interface [TB], two helpers for the optional message tail
    ([FormatPrefix], [AddPrefix]) and a panic capturer ([capturePanic]).

    The development has three layers:
    - [Go]: the part of the Go language and of its standard library the
      package relies on (dynamic values, [==], [fmt], [errors.Is],
      [reflect.DeepEqual], panics);
    - [Assert]: the package itself, function by function;
    - the properties, stated over both. *)

From Stdlib Require Import String Ascii ZArith NArith List Bool Lia.
From Stdlib Require Import DecimalString HexString.
Import ListNotations.
Open Scope string_scope.
Open Scope list_scope.

#[local] Set Warnings "-register-all".

(* ================================================================== *)
(** * The Go fragment                                                  *)
(* ================================================================== *)

Module Go.

(** Types, as far as [%T] and zero values need them.  Defined (named)
    types are not represented: in every function of the package a value
    of a defined type behaves as one of its underlying type, up to the
    name [%T] prints. *)
Inductive gotype : Type :=
| TBool
| TInt
| TString
| TError
| TAny
| TPtr (elem : gotype)
| TSlice (elem : gotype)
| TMap (key val : gotype).

Fixpoint type_string (t : gotype) : string :=
  match t with
  | TBool => "bool"
  | TInt => "int"
  | TString => "string"
  | TError => "error"
  | TAny => "interface {}"
  | TPtr e => "*" ++ type_string e
  | TSlice e => "[]" ++ type_string e
  | TMap k v => "map[" ++ type_string k ++ "]" ++ type_string v
  end.

Fixpoint gotype_eqb (a b : gotype) : bool :=
  match a, b with
  | TBool, TBool | TInt, TInt | TString, TString
  | TError, TError | TAny, TAny => true
  | TPtr x, TPtr y | TSlice x, TSlice y => gotype_eqb x y
  | TMap k v, TMap k' v' => gotype_eqb k k' && gotype_eqb v v'
  | _, _ => false
  end.

(** A non-nil [error]: the name of its dynamic type, what its [Error]
    method returns, and what [Unwrap] returns.  Pointer identity of
    error values is not tracked: two errors are [==] when they agree on
    all three. *)
Inductive error : Type :=
| mkError (dyn : string) (msg : string) (cause : option error).

Definition error_dyn (e : error) : string := let (d, _, _) := e in d.
Definition error_Error (e : error) : string := let (_, m, _) := e in m.

Fixpoint error_eqb (a b : error) : bool :=
  match a, b with
  | mkError d m c, mkError d' m' c' =>
      String.eqb d d' && String.eqb m m' &&
      match c, c' with
      | None, None => true
      | Some x, Some y => error_eqb x y
      | _, _ => false
      end
  end.

(** What a variable of type [any] can hold.  [VNil] is the nil
    interface (also [error(nil)]); a pointer, slice or map carries its
    element types, and is nil when its payload is [None].  A non-nil
    pointer is an address together with the value stored there. *)
Inductive value : Type :=
| VNil
| VBool (b : bool)
| VInt (n : Z)
| VString (s : string)
| VError (e : error)
| VPtr (elem : gotype) (target : option (N * value))
| VSlice (elem : gotype) (items : option (list value))
| VMap (key val : gotype) (entries : option (list (value * value))).

(** Induction on values, through the elements of slices and the
    entries of maps. *)
Section ValueInduction.
Variable P : value -> Prop.
Hypothesis Hnil : P VNil.
Hypothesis Hbool : forall b, P (VBool b).
Hypothesis Hint : forall n, P (VInt n).
Hypothesis Hstring : forall s, P (VString s).
Hypothesis Herror : forall e, P (VError e).
Hypothesis Hptr_nil : forall T, P (VPtr T None).
Hypothesis Hptr : forall T addr x, P x -> P (VPtr T (Some (addr, x))).
Hypothesis Hslice_nil : forall T, P (VSlice T None).
Hypothesis Hslice : forall T xs, Forall P xs -> P (VSlice T (Some xs)).
Hypothesis Hmap_nil : forall K V, P (VMap K V None).
Hypothesis Hmap : forall K V es,
  Forall (fun kx => P (fst kx) /\ P (snd kx)) es -> P (VMap K V (Some es)).

Fixpoint value_nested_ind (v : value) : P v :=
  match v with
  | VNil => Hnil
  | VBool b => Hbool b
  | VInt n => Hint n
  | VString s => Hstring s
  | VError e => Herror e
  | VPtr T None => Hptr_nil T
  | VPtr T (Some (addr, x)) => Hptr T addr x (value_nested_ind x)
  | VSlice T None => Hslice_nil T
  | VSlice T (Some xs) =>
      Hslice T xs
        ((fix all (l : list value) : Forall P l :=
            match l with
            | [] => Forall_nil P
            | x :: l' => Forall_cons x (value_nested_ind x) (all l')
            end) xs)
  | VMap K V None => Hmap_nil K V
  | VMap K V (Some es) =>
      Hmap K V es
        ((fix all (l : list (value * value))
            : Forall (fun kx => P (fst kx) /\ P (snd kx)) l :=
            match l with
            | [] => Forall_nil _
            | (k, x) :: l' =>
                Forall_cons (k, x)
                  (conj (value_nested_ind k) (value_nested_ind x)) (all l')
            end) es)
  end.
End ValueInduction.

(** An [error] variable: nil or a non-nil error. *)
Definition of_error (a : option error) : value :=
  match a with
  | None => VNil
  | Some e => VError e
  end.

(** [%T]: the dynamic type, by name. *)
Definition type_name (v : value) : string :=
  match v with
  | VNil => "<nil>"
  | VBool _ => type_string TBool
  | VInt _ => type_string TInt
  | VString _ => type_string TString
  | VError e => error_dyn e
  | VPtr e _ => type_string (TPtr e)
  | VSlice e _ => type_string (TSlice e)
  | VMap k w _ => type_string (TMap k w)
  end.

(** [var zero T]. *)
Definition zero_value (t : gotype) : value :=
  match t with
  | TBool => VBool false
  | TInt => VInt 0
  | TString => VString EmptyString
  | TError | TAny => VNil
  | TPtr e => VPtr e None
  | TSlice e => VSlice e None
  | TMap k v => VMap k v None
  end.

(** ** Outcomes: a call returns or panics *)

Inductive outcome (A : Type) : Type :=
| Returned (a : A)
| Panicked (v : value).
Arguments Returned {A} a.
Arguments Panicked {A} v.

Definition runtime_error (msg : string) : value :=
  VError (mkError "runtime.errorString" msg None).

(** ** [==] on interface values

    Operands of different dynamic types are unequal; slices and maps of
    one type are not comparable and the comparison panics.  This is also
    what [==] does at a type parameter constrained by [comparable]. *)
Definition go_eq (a b : value) : outcome bool :=
  match a, b with
  | VNil, VNil => Returned true
  | VBool x, VBool y => Returned (Bool.eqb x y)
  | VInt x, VInt y => Returned (Z.eqb x y)
  | VString x, VString y => Returned (String.eqb x y)
  | VError x, VError y => Returned (error_eqb x y)
  | VPtr e p, VPtr e' p' =>
      Returned (gotype_eqb e e' &&
                match p, p' with
                | None, None => true
                | Some (x, _), Some (y, _) => N.eqb x y
                | _, _ => false
                end)
  | VSlice e _, VSlice e' _ =>
      if gotype_eqb e e'
      then Panicked (runtime_error
             ("runtime error: comparing uncomparable type " ++ type_string (TSlice e)))
      else Returned false
  | VMap k w _, VMap k' w' _ =>
      if gotype_eqb k k' && gotype_eqb w w'
      then Panicked (runtime_error
             ("runtime error: comparing uncomparable type " ++ type_string (TMap k w)))
      else Returned false
  | _, _ => Returned false
  end.

(** [a != b]. *)
Definition go_ne (a b : value) : outcome bool :=
  match go_eq a b with
  | Returned r => Returned (negb r)
  | Panicked v => Panicked v
  end.

(** Key equality inside a map, where keys are comparable. *)
Definition key_eqb (a b : value) : bool :=
  match go_eq a b with
  | Returned r => r
  | Panicked _ => false
  end.

Fixpoint lookup {A : Type} (k : value) (m : list (value * A)) : option A :=
  match m with
  | [] => None
  | (k', x) :: m' => if key_eqb k k' then Some x else lookup k m'
  end.

(** ** [errors.Is]

    The target is found somewhere on the chain of wrapped causes. *)
Fixpoint chain_has (err target : error) : bool :=
  match err with
  | mkError _ _ c =>
      error_eqb err target ||
      match c with
      | Some inner => chain_has inner target
      | None => false
      end
  end.

Definition errors_Is (err target : option error) : bool :=
  match err, target with
  | Some a, Some e => chain_has a e
  | None, None => true
  | _, _ => false
  end.

(** ** [reflect.DeepEqual]

    Same dynamic type and recursively equal contents; a nil slice or
    map differs from an empty one; maps are compared entry by entry,
    whatever the order. *)
Fixpoint DeepEqual (a b : value) : bool :=
  match a, b with
  | VNil, VNil => true
  | VBool x, VBool y => Bool.eqb x y
  | VInt x, VInt y => Z.eqb x y
  | VString x, VString y => String.eqb x y
  | VError x, VError y => error_eqb x y
  | VPtr e p, VPtr e' p' =>
      gotype_eqb e e' &&
      match p, p' with
      | None, None => true
      | Some (x, u), Some (y, w) => N.eqb x y || DeepEqual u w
      | _, _ => false
      end
  | VSlice e s, VSlice e' s' =>
      gotype_eqb e e' &&
      match s, s' with
      | None, None => true
      | Some xs, Some ys =>
          (fix all2 (xs ys : list value) : bool :=
             match xs, ys with
             | [], [] => true
             | x :: xs', y :: ys' => DeepEqual x y && all2 xs' ys'
             | _, _ => false
             end) xs ys
      | _, _ => false
      end
  | VMap k w m, VMap k' w' m' =>
      gotype_eqb k k' && gotype_eqb w w' &&
      match m, m' with
      | None, None => true
      | Some es, Some fs =>
          Nat.eqb (length es) (length fs) &&
          (fix each (es : list (value * value)) : bool :=
             match es with
             | [] => true
             | (key, x) :: es' =>
                 match lookup key fs with
                 | Some y => DeepEqual x y
                 | None => false
                 end && each es'
             end) es
      | _, _ => false
      end
  | _, _ => false
  end.

(** ** Package [fmt]

    The verbs [%v], [%s], [%d], [%T] and [%%], without flags, width,
    precision or argument indexes; on a format inside this fragment the
    functions below print what [fmt] prints.  Any other verb is printed
    the way [fmt] prints a verb its operand does not support. *)

Definition decimal (n : Z) : string := NilZero.string_of_int (Z.to_int n).

Definition bool_string (b : bool) : string := if b then "true" else "false".

Definition join (sep : string) (l : list string) : string := String.concat sep l.

(** The order in which a map's entries are printed: by key. *)
Definition key_leb (a b : value) : bool :=
  match a, b with
  | VBool x, VBool y => implb x y
  | VInt x, VInt y => Z.leb x y
  | VString x, VString y =>
      match String.compare x y with Gt => false | _ => true end
  | _, _ => true
  end.

Fixpoint insert_entry {A : Type} (e : value * A) (l : list (value * A))
  : list (value * A) :=
  match l with
  | [] => [e]
  | x :: l' => if key_leb (fst e) (fst x) then e :: l else x :: insert_entry e l'
  end.

Definition sort_entries {A : Type} (l : list (value * A)) : list (value * A) :=
  fold_right insert_entry [] l.

Definition is_container (v : value) : bool :=
  match v with
  | VSlice _ _ | VMap _ _ _ => true
  | _ => false
  end.

(** One operand under one verb.  [top] says the operand is the argument
    itself rather than an element of it; [bad] prints an operand the
    verb does not apply to. *)
Fixpoint print_value (bad : value -> string) (verb : ascii) (top : bool)
  (v : value) : string :=
  let on c := Ascii.eqb verb c in
  match v with
  | VNil => if on "v"%char || negb top then "<nil>" else bad v
  | VBool b => if on "v"%char || on "t"%char then bool_string b else bad v
  | VInt n => if on "v"%char || on "d"%char then decimal n else bad v
  | VString s => if on "v"%char || on "s"%char then s else bad v
  | VError e => if on "v"%char || on "s"%char then error_Error e else bad v
  | VPtr _ None =>
      if on "v"%char then "<nil>" else if on "d"%char then "0" else bad v
  | VPtr _ (Some (addr, x)) =>
      if top && is_container x then "&" ++ print_value bad verb false x
      else if on "v"%char then HexString.of_N addr
      else if on "d"%char then decimal (Z.of_N addr)
      else bad v
  | VSlice _ None => "[]"
  | VSlice _ (Some xs) =>
      "[" ++ join " " (map (print_value bad verb false) xs) ++ "]"
  | VMap _ _ None => "map[]"
  | VMap _ _ (Some es) =>
      let printed :=
        map (fun kx : value * value =>
               let (k, x) := kx in
               (k, (print_value bad verb false k ++ ":" ++
                    print_value bad verb false x)%string)) es in
      "map[" ++ join " " (map snd (sort_entries printed)) ++ "]"
  end.

(** [%v]. *)
Definition fmt_v (v : value) : string :=
  print_value (fun _ => EmptyString) "v"%char true v.

(** [%!verb(type=value)]. *)
Definition bad_verb (verb : ascii) (v : value) : string :=
  ("%!" ++ String verb "(" ++
   match v with
   | VNil => "<nil>"
   | _ => type_name v ++ "=" ++ fmt_v v
   end ++ ")")%string.

Definition print_arg (verb : ascii) (v : value) : string :=
  if Ascii.eqb verb "T"%char then type_name v
  else print_value (bad_verb verb) verb true v.

(** Operands left over when the format is exhausted. *)
Definition extra (a : list value) : string :=
  match a with
  | [] => EmptyString
  | _ =>
      "%!(EXTRA " ++
      join ", " (map (fun v => match v with
                               | VNil => "<nil>"
                               | _ => (type_name v ++ "=" ++ fmt_v v)%string
                               end) a) ++ ")"
  end.

(** [fmt.Sprintf]. *)
Fixpoint Sprintf (format : string) (a : list value) : string :=
  match format with
  | EmptyString => extra a
  | String "%" EmptyString => "%!(NOVERB)" ++ extra a
  | String "%" (String verb rest) =>
      if Ascii.eqb verb "%"%char then String "%" (Sprintf rest a)
      else match a with
           | [] => "%!" ++ String verb "(MISSING)" ++ Sprintf rest []
           | x :: a' => print_arg verb x ++ Sprintf rest a'
           end
  | String c rest => String c (Sprintf rest a)
  end.

(** [fmt.Sprint] of one operand. *)
Definition Sprint (v : value) : string := fmt_v v.

(** [fmt.Errorf], for a format without [%w]. *)
Definition fmt_Errorf (format : string) (a : list value) : error :=
  mkError "*errors.errorString" (Sprintf format a) None.

(** ** Panics and [recover]

    A function value of type [func()] is observed through how a call to
    it ends: it returns, or it panics with the value [recover] yields
    for that panic.  [recover] in a deferred function stops the panic
    and yields its value, and yields nil when there is no panic.  Up to
    Go 1.20, the version the package requires, [panic(nil)] panics with
    the value nil; later versions turn it into a panic with a run-time
    error at the [panic] statement. *)
Definition func : Type := unit -> outcome unit.

Definition recover {A : Type} (ending : outcome A) : value :=
  match ending with
  | Returned _ => VNil
  | Panicked v => v
  end.

End Go.

(* ================================================================== *)
(** * The package                                                      *)
(* ================================================================== *)

Module Assert.
Import Go.
#[local] Open Scope string_scope.

(** [type TB interface { Helper(); Errorf(format string, args ...any) }].
    Both methods return, and return nothing: an implementation is what
    the two calls do to its state [S]. *)
Class TB (S : Type) : Type := {
  Helper : S -> S;
  Errorf : string -> list value -> S -> S
}.

(** A computation that may call the methods of [t] and may panic. *)
Definition M (S A : Type) : Type := S -> outcome A * S.

Definition ret {S A : Type} (a : A) : M S A := fun s => (Returned a, s).

Definition bind {S A B : Type} (c : M S A) (k : A -> M S B) : M S B :=
  fun s =>
    match c s with
    | (Returned a, s') => k a s'
    | (Panicked v, s') => (Panicked v, s')
    end.

(** An expression that does not involve [t]. *)
Definition eval {S A : Type} (o : outcome A) : M S A := fun s => (o, s).

Definition t_Helper {S : Type} `{TB S} : M S unit :=
  fun s => (Returned tt, Helper s).

Definition t_Errorf {S : Type} `{TB S} (format : string) (args : list value)
  : M S unit :=
  fun s => (Returned tt, Errorf format args s).

Declare Scope go_scope.
Delimit Scope go_scope with go.
Notation "x <- c ;; k" := (bind c (fun x => k))
  (at level 61, c at next level, right associativity) : go_scope.
Notation "c ;; k" := (bind c (fun _ => k))
  (at level 61, right associativity) : go_scope.

(** A [*T]: nil, or an address and the [T] stored there. *)
Definition pointer : Type := option (N * value).

(** [len] of a slice or map. *)
Definition len {A : Type} (a : option (list A)) : nat :=
  match a with
  | None => 0
  | Some l => length l
  end.

(** ** The message tail *)

Definition FormatPrefix (messageAndArgs : list value) : outcome string :=
  match messageAndArgs with
  | [] => Returned EmptyString
  | VString msg :: rest => Returned (Sprintf msg rest ++ ": ")
  | x :: _ =>
      Panicked (VError (fmt_Errorf
        "when passing messageAndArgs to assertion funcs, the first extra argument must be a format string, got %T %v"
        [x; x]))
  end.

Definition AddPrefix (messageAndArgs : list value) (prefix : string)
  (args : list value) : list value :=
  let (prefix, messageAndArgs) :=
    match messageAndArgs with
    | VString msg :: rest => (prefix ++ ": " ++ msg, rest)
    | _ => (prefix, messageAndArgs)
    end in
  (([VString prefix] ++ args) ++ messageAndArgs)%list.

(** ** The panic capturer

    [f] runs, then the deferred function assigns [recover()] to the
    named result, and [capturePanic] returns normally. *)
Definition capturePanic (f : func) : outcome value :=
  let panicValue := recover (f tt) in
  Returned panicValue.

(** ** The assertions

    An operand of a type parameter is the dynamic value it boxes to when
    it is passed on to [Errorf]; [==] at the type parameter is then
    [go_eq].  Where the function needs the type argument itself (the
    zero value, or the pointer, slice or map type) it is a parameter. *)

Section Assertions.
Context {S : Type} `{TB S}.
Local Open Scope go_scope.

Definition OK (a : bool) (messageAndArgs : list value) : M S bool :=
  if negb a then
    t_Helper ;;
    p <- eval (FormatPrefix messageAndArgs) ;;
    t_Errorf "** %sgot false, wanted true" [VString p] ;;
    ret false
  else ret true.

Definition False (a : bool) (messageAndArgs : list value) : M S bool :=
  if a then
    t_Helper ;;
    p <- eval (FormatPrefix messageAndArgs) ;;
    t_Errorf "** %sgot true, wanted false" [VString p] ;;
    ret false
  else ret true.

Definition Eq (a e : value) (messageAndArgs : list value) : M S bool :=
  ne <- eval (go_ne a e) ;;
  if ne : bool then
    t_Helper ;;
    p <- eval (FormatPrefix messageAndArgs) ;;
    t_Errorf "** %sgot %v, wanted %v" [VString p; a; e] ;;
    ret false
  else ret true.

Definition NotEq (a e : value) (messageAndArgs : list value) : M S bool :=
  eq <- eval (go_eq a e) ;;
  if eq : bool then
    t_Helper ;;
    p <- eval (FormatPrefix messageAndArgs) ;;
    t_Errorf "** %sgot %v, wanted anything else" [VString p; a] ;;
    ret false
  else ret true.

Definition DeepEqual (a e : value) (messageAndArgs : list value) : M S bool :=
  if negb (Go.DeepEqual a e) then
    t_Helper ;;
    p <- eval (FormatPrefix messageAndArgs) ;;
    t_Errorf "** %sgot %v, wanted %v" [VString p; a; e] ;;
    ret false
  else ret true.

Definition NotDeepEqual (a e : value) (messageAndArgs : list value) : M S bool :=
  if Go.DeepEqual a e then
    t_Helper ;;
    p <- eval (FormatPrefix messageAndArgs) ;;
    t_Errorf "** %sgot %v, wanted anything else" [VString p; a] ;;
    ret false
  else ret true.

(** The type parameter's [Equal] method is passed as [Equal];
    [e.Equal(a)] is [Equal e a]. *)
Definition MethodEqual (Equal : value -> value -> bool) (a e : value)
  (messageAndArgs : list value) : M S bool :=
  t_Helper ;;
  if negb (Equal e a) then
    p <- eval (FormatPrefix messageAndArgs) ;;
    t_Errorf "** %sgot %v, wanted %v" [VString p; a; e] ;;
    ret false
  else ret true.

Definition NotMethodEqual (Equal : value -> value -> bool) (a e : value)
  (messageAndArgs : list value) : M S bool :=
  t_Helper ;;
  if Equal e a then
    p <- eval (FormatPrefix messageAndArgs) ;;
    t_Errorf "** %sgot %v, wanted anything else" [VString p; a] ;;
    ret false
  else ret true.

Definition Nil (T : gotype) (a : pointer) (messageAndArgs : list value)
  : M S bool :=
  match a with
  | Some (_, target) =>
      t_Helper ;;
      p <- eval (FormatPrefix messageAndArgs) ;;
      t_Errorf "** %sgot &%v, wanted nil" [VString p; target] ;;
      ret false
  | None => ret true
  end.

Definition NonNil (T : gotype) (a : pointer) (messageAndArgs : list value)
  : M S bool :=
  match a with
  | None =>
      t_Helper ;;
      p <- eval (FormatPrefix messageAndArgs) ;;
      t_Errorf "** %sgot nil %T, wanted non-nil" [VString p; VPtr T a] ;;
      ret false
  | Some _ => ret true
  end.

Definition Zero (T : gotype) (a : value) (messageAndArgs : list value)
  : M S bool :=
  let zero := zero_value T in
  ne <- eval (go_ne a zero) ;;
  if ne : bool then
    t_Helper ;;
    p <- eval (FormatPrefix messageAndArgs) ;;
    t_Errorf "** %sgot %v, wanted zero value %v" [VString p; a; zero] ;;
    ret false
  else ret true.

Definition NonZero (T : gotype) (a : value) (messageAndArgs : list value)
  : M S bool :=
  let zero := zero_value T in
  eq <- eval (go_eq a zero) ;;
  if eq : bool then
    t_Helper ;;
    p <- eval (FormatPrefix messageAndArgs) ;;
    t_Errorf "** %sgot zero value %v, wanted non-zero" [VString p; a] ;;
    ret false
  else ret true.

Definition EmptySlice (T : gotype) (a : option (list value))
  (messageAndArgs : list value) : M S bool :=
  if Nat.ltb 0 (len a) then
    t_Helper ;;
    p <- eval (FormatPrefix messageAndArgs) ;;
    t_Errorf "** %sgot %v, wanted empty slice" [VString p; VSlice T a] ;;
    ret false
  else ret true.

Definition NonEmptySlice (T : gotype) (a : option (list value))
  (messageAndArgs : list value) : M S bool :=
  if Nat.eqb (len a) 0 then
    t_Helper ;;
    p <- eval (FormatPrefix messageAndArgs) ;;
    t_Errorf "** %sgot empty %T, wanted non-empty" [VString p; VSlice T a] ;;
    ret false
  else ret true.

Definition EmptyMap (K V : gotype) (a : option (list (value * value)))
  (messageAndArgs : list value) : M S bool :=
  if Nat.ltb 0 (len a) then
    t_Helper ;;
    p <- eval (FormatPrefix messageAndArgs) ;;
    t_Errorf "** %sgot %v, wanted empty map" [VString p; VMap K V a] ;;
    ret false
  else ret true.

Definition NonEmptyMap (K V : gotype) (a : option (list (value * value)))
  (messageAndArgs : list value) : M S bool :=
  if Nat.eqb (len a) 0 then
    t_Helper ;;
    p <- eval (FormatPrefix messageAndArgs) ;;
    t_Errorf "** %sgot empty %T, wanted non-empty" [VString p; VMap K V a] ;;
    ret false
  else ret true.

Definition Success (a : option error) (messageAndArgs : list value)
  : M S bool :=
  match a with
  | Some _ =>
      t_Helper ;;
      p <- eval (FormatPrefix messageAndArgs) ;;
      t_Errorf "** %sfailed: %v" [VString p; of_error a] ;;
      ret false
  | None => ret true
  end.

Definition Error (a e : option error) (messageAndArgs : list value)
  : M S bool :=
  match e, a with
  | None, _ =>
      t_Helper ;;
      Success a messageAndArgs
  | Some _, None =>
      t_Helper ;;
      p <- eval (FormatPrefix messageAndArgs) ;;
      t_Errorf "** %ssucceeded, wanted to fail with: %v" [VString p; of_error e] ;;
      ret false
  | Some _, Some _ =>
      if negb (errors_Is a e) then
        t_Helper ;;
        p <- eval (FormatPrefix messageAndArgs) ;;
        t_Errorf "** %sfailed with: %v, wanted: %v" [VString p; of_error a; of_error e] ;;
        ret false
      else ret true
  end.

Definition ErrorMsg (a : option error) (e : string)
  (messageAndArgs : list value) : M S bool :=
  if String.eqb e EmptyString then Success a messageAndArgs
  else match a with
       | None =>
           t_Helper ;;
           p <- eval (FormatPrefix messageAndArgs) ;;
           t_Errorf "** %ssucceeded, wanted to fail with: %v" [VString p; VString e] ;;
           ret false
       | Some err =>
           let s := error_Error err in
           if negb (String.eqb s e) then
             t_Helper ;;
             p <- eval (FormatPrefix messageAndArgs) ;;
             t_Errorf "** %sfailed with: %v, wanted: %v" [VString p; VString s; VString e] ;;
             ret false
           else ret true
       end.

Definition PanicMsg (f : func) (e : string) (messageAndArgs : list value)
  : M S bool :=
  actual <- eval (capturePanic f) ;;
  match actual with
  | VNil =>
      t_Helper ;;
      p <- eval (FormatPrefix messageAndArgs) ;;
      t_Errorf "** %ssucceeded, wanted to panic with: %v" [VString p; VString e] ;;
      ret false
  | _ =>
      let a := Sprint actual in
      if negb (String.eqb a e) then
        t_Helper ;;
        p <- eval (FormatPrefix messageAndArgs) ;;
        t_Errorf "** %spaniced with: %v, wanted: %v" [VString p; VString a; VString e] ;;
        ret false
      else ret true
  end.

End Assertions.

End Assert.

(* ================================================================== *)
(** * Calls, conditions and documented wording                         *)
(* ================================================================== *)

Module Spec.
Import Go.
#[local] Open Scope string_scope.

(** One call of an assertion: the function and its operands, without
    the reporter and the message tail. *)
Inductive call : Type :=
| CallOK (a : bool)
| CallFalse (a : bool)
| CallEq (a e : value)
| CallNotEq (a e : value)
| CallDeepEqual (a e : value)
| CallNotDeepEqual (a e : value)
| CallMethodEqual (Equal : value -> value -> bool) (a e : value)
| CallNotMethodEqual (Equal : value -> value -> bool) (a e : value)
| CallNil (T : gotype) (a : Assert.pointer)
| CallNonNil (T : gotype) (a : Assert.pointer)
| CallZero (T : gotype) (a : value)
| CallNonZero (T : gotype) (a : value)
| CallEmptySlice (T : gotype) (a : option (list value))
| CallNonEmptySlice (T : gotype) (a : option (list value))
| CallEmptyMap (K V : gotype) (a : option (list (value * value)))
| CallNonEmptyMap (K V : gotype) (a : option (list (value * value)))
| CallSuccess (a : option error)
| CallError (a e : option error)
| CallErrorMsg (a : option error) (e : string)
| CallPanicMsg (f : func) (e : string).

(** The call as the package executes it. *)
Definition run {S : Type} `{Assert.TB S} (c : call) (messageAndArgs : list value)
  : Assert.M S bool :=
  match c with
  | CallOK a => Assert.OK a messageAndArgs
  | CallFalse a => Assert.False a messageAndArgs
  | CallEq a e => Assert.Eq a e messageAndArgs
  | CallNotEq a e => Assert.NotEq a e messageAndArgs
  | CallDeepEqual a e => Assert.DeepEqual a e messageAndArgs
  | CallNotDeepEqual a e => Assert.NotDeepEqual a e messageAndArgs
  | CallMethodEqual Equal a e => Assert.MethodEqual Equal a e messageAndArgs
  | CallNotMethodEqual Equal a e => Assert.NotMethodEqual Equal a e messageAndArgs
  | CallNil T a => Assert.Nil T a messageAndArgs
  | CallNonNil T a => Assert.NonNil T a messageAndArgs
  | CallZero T a => Assert.Zero T a messageAndArgs
  | CallNonZero T a => Assert.NonZero T a messageAndArgs
  | CallEmptySlice T a => Assert.EmptySlice T a messageAndArgs
  | CallNonEmptySlice T a => Assert.NonEmptySlice T a messageAndArgs
  | CallEmptyMap K V a => Assert.EmptyMap K V a messageAndArgs
  | CallNonEmptyMap K V a => Assert.NonEmptyMap K V a messageAndArgs
  | CallSuccess a => Assert.Success a messageAndArgs
  | CallError a e => Assert.Error a e messageAndArgs
  | CallErrorMsg a e => Assert.ErrorMsg a e messageAndArgs
  | CallPanicMsg f e => Assert.PanicMsg f e messageAndArgs
  end.

(** The message tail starts with a format string. *)
Definition is_string (v : value) : bool :=
  match v with
  | VString _ => true
  | _ => false
  end.

Definition has_template (messageAndArgs : list value) : bool :=
  match messageAndArgs with
  | x :: _ => is_string x
  | [] => false
  end.

Definition absent {A : Type} (a : option A) : bool :=
  match a with
  | None => true
  | Some _ => false
  end.

(** What the fault capturer hands back for [f]. *)
Definition captured (f : func) : value := recover (f tt).

(** The condition each operation asserts, after the table of operations:
    the "condition checked" column.  A comparison with [==] has no truth
    value when it panics.  For [PanicMsg] the fault is the captured
    value, so a nil panic value counts as no fault. *)
Definition condition (c : call) : outcome bool :=
  match c with
  | CallOK a => Returned a
  | CallFalse a => Returned (negb a)
  | CallEq a e => go_eq a e
  | CallNotEq a e => go_ne a e
  | CallDeepEqual a e => Returned (DeepEqual a e)
  | CallNotDeepEqual a e => Returned (negb (DeepEqual a e))
  | CallMethodEqual Equal a e => Returned (Equal e a)
  | CallNotMethodEqual Equal a e => Returned (negb (Equal e a))
  | CallNil _ a => Returned (absent a)
  | CallNonNil _ a => Returned (negb (absent a))
  | CallZero T a => go_eq a (zero_value T)
  | CallNonZero T a => go_ne a (zero_value T)
  | CallEmptySlice _ a => Returned (Nat.eqb (Assert.len a) 0)
  | CallNonEmptySlice _ a => Returned (Nat.leb 1 (Assert.len a))
  | CallEmptyMap _ _ a => Returned (Nat.eqb (Assert.len a) 0)
  | CallNonEmptyMap _ _ a => Returned (Nat.leb 1 (Assert.len a))
  | CallSuccess a => Returned (absent a)
  | CallError a None => Returned (absent a)
  | CallError None (Some _) => Returned false
  | CallError (Some a) (Some e) => Returned (chain_has a e)
  | CallErrorMsg a e =>
      if String.eqb e EmptyString then Returned (absent a)
      else match a with
           | None => Returned false
           | Some err => Returned (String.eqb (error_Error err) e)
           end
  | CallPanicMsg f e =>
      match captured f with
      | VNil => Returned false
      | v => Returned (String.eqb (Sprint v) e)
      end
  end.

Definition failed_wording (a : option error) : string :=
  "failed: " ++ Sprint (of_error a).

(** The "failure wording" column: the text after the prefix, for a call
    whose condition fails. *)
Definition wording (c : call) : string :=
  match c with
  | CallOK _ => "got false, wanted true"
  | CallFalse _ => "got true, wanted false"
  | CallEq a e | CallDeepEqual a e | CallMethodEqual _ a e =>
      "got " ++ Sprint a ++ ", wanted " ++ Sprint e
  | CallNotEq a _ | CallNotDeepEqual a _ | CallNotMethodEqual _ a _ =>
      "got " ++ Sprint a ++ ", wanted anything else"
  | CallNil _ a =>
      "got &" ++ match a with Some (_, x) => Sprint x | None => EmptyString end
      ++ ", wanted nil"
  | CallNonNil T _ => "got nil " ++ type_string (TPtr T) ++ ", wanted non-nil"
  | CallZero T a =>
      "got " ++ Sprint a ++ ", wanted zero value " ++ Sprint (zero_value T)
  | CallNonZero T _ =>
      "got zero value " ++ Sprint (zero_value T) ++ ", wanted non-zero"
  | CallEmptySlice T a => "got " ++ Sprint (VSlice T a) ++ ", wanted empty slice"
  | CallNonEmptySlice T _ =>
      "got empty " ++ type_string (TSlice T) ++ ", wanted non-empty"
  | CallEmptyMap K V a => "got " ++ Sprint (VMap K V a) ++ ", wanted empty map"
  | CallNonEmptyMap K V _ =>
      "got empty " ++ type_string (TMap K V) ++ ", wanted non-empty"
  | CallSuccess a => failed_wording a
  | CallError a None => failed_wording a
  | CallError None (Some e) =>
      "succeeded, wanted to fail with: " ++ error_Error e
  | CallError (Some a) (Some e) =>
      "failed with: " ++ error_Error a ++ ", wanted: " ++ error_Error e
  | CallErrorMsg a e =>
      if String.eqb e EmptyString then failed_wording a
      else match a with
           | None => "succeeded, wanted to fail with: " ++ e
           | Some err => "failed with: " ++ error_Error err ++ ", wanted: " ++ e
           end
  | CallPanicMsg f e =>
      match captured f with
      | VNil => "succeeded, wanted to panic with: " ++ e
      | v => "paniced with: " ++ Sprint v ++ ", wanted: " ++ e
      end
  end.

(** The calls that mark a helper frame before they look at the
    condition: [MethodEqual] and [NotMethodEqual] always, [Error] when
    it hands over to [Success]. *)
Definition marks_first (c : call) : bool :=
  match c with
  | CallMethodEqual _ _ _ | CallNotMethodEqual _ _ _ | CallError _ None => true
  | _ => false
  end.

(** How often a failing call marks a helper frame: [Error] with a nil
    expected error marks its own frame and then [Success] marks its. *)
Definition failure_marks (c : call) : nat :=
  match c with
  | CallError _ None => 2
  | _ => 1
  end.

(** ** A reporter that records *)

Inductive event : Type :=
| EvHelper
| EvErrorf (format : string) (args : list value).

#[export] Instance Recorder : Assert.TB (list event) := {
  Helper s := (s ++ [EvHelper])%list;
  Errorf format args s := (s ++ [EvErrorf format args])%list
}.

(** The calls, replayed on any reporter. *)
Definition replay {S : Type} `{Assert.TB S} (tr : list event) (s : S) : S :=
  fold_left (fun s ev =>
               match ev with
               | EvHelper => Assert.Helper s
               | EvErrorf format args => Assert.Errorf format args s
               end) tr s.

(** What a test sees of a reporter such as [*testing.T]: helper marks
    and formatted messages. *)
Inductive seen : Type :=
| Marked
| Reported (message : string).

Definition render (ev : event) : seen :=
  match ev with
  | EvHelper => Marked
  | EvErrorf format args => Reported (Sprintf format args)
  end.

Definition result_of {A : Type} (c : Assert.M (list event) A) : outcome A :=
  fst (c []).

Definition trace_of {A : Type} (c : Assert.M (list event) A) : list event :=
  snd (c []).

Definition observed {A : Type} (c : Assert.M (list event) A)
  : outcome A * list seen :=
  (result_of c, map render (trace_of c)).

Definition helper_calls (tr : list event) : nat :=
  length (filter (fun ev => match ev with EvHelper => true | _ => false end) tr).

Definition errorf_calls (tr : list event) : nat :=
  length (filter (fun ev => match ev with EvErrorf _ _ => true | _ => false end) tr).

(** The behaviour of a call as seen by a test, by cases on the
    condition: on success nothing is reported and the helper frame is
    marked only by the calls that mark first; on failure the marks come
    first and one report follows, unless the message tail is malformed,
    in which case [FormatPrefix] panics before anything is reported. *)
Definition behaviour (c : call) (tail : list value)
  : outcome bool * list seen :=
  match condition c with
  | Panicked v => (Panicked v, [])
  | Returned true => (Returned true, if marks_first c then [Marked] else [])
  | Returned false =>
      match Assert.FormatPrefix tail with
      | Returned p =>
          (Returned false,
           (repeat Marked (failure_marks c) ++ [Reported ("** " ++ p ++ wording c)])%list)
      | Panicked v => (Panicked v, repeat Marked (failure_marks c))
      end
  end.

(** A call under the recording reporter, as a test of the package
    sets it up. *)
Definition seen_by_test (c : call) (tail : list value) : outcome bool * list seen :=
  observed (run c tail).

(** ** Sample operands, from the package's tests *)

Definition ErrNotExist : error :=
  mkError "*errors.errorString" "file does not exist" None.

Definition ErrExist : error :=
  mkError "*errors.errorString" "file already exists" None.

(** [a := make([]int, 2); a[2] = 42]. *)
Definition panickyFunc : func :=
  fun _ => Panicked (VError (mkError "runtime.boundsError"
             "runtime error: index out of range [2] with length 2" None)).

Definition completes : func := fun _ => Returned tt.

Definition panics_nil : func := fun _ => Panicked VNil.

(** The [Equal] method of a defined integer type:
    [func (x Int) Equal(y Int) bool { return x == y }]. *)
Definition int_Equal (x y : value) : bool := key_eqb x y.

End Spec.

(* ================================================================== *)
(** * The test doubles of the package's tests                          *)
(* ================================================================== *)

Module Doubles.
Import Go.
#[local] Open Scope string_scope.

Definition newline : string := String (ascii_of_nat 10) EmptyString.
Definition tab : string := String (ascii_of_nat 9) EmptyString.

(** [type noErrTB struct { t testing.TB }].  Of the [testing.TB] behind
    a double only the messages of its [Fatal] and [Fatalf] calls are
    kept.  Such a call ends the test goroutine: the rest of the method
    does not run, and neither does any later call from the test body. *)
Record noErrTB : Type := { noerr_fatals : list string }.

Definition noerr : noErrTB := {| noerr_fatals := [] |}.

#[export] Instance noErrTB_TB : Assert.TB noErrTB := {
  Helper f := f;
  Errorf format args f :=
    match noerr_fatals f with
    | [] => {| noerr_fatals :=
                 [Sprintf "unexpected error: %s" [VString (Sprintf format args)]] |}
    | _ => f
    end
}.

(** [type fakeTB struct { t testing.TB; helperCalled, errorCalled bool;
    expected string }]. *)
Record fakeTB : Type := {
  fatals : list string;
  helperCalled : bool;
  errorCalled : bool;
  expected : string
}.

Definition fake (expected : string) : fakeTB :=
  {| fatals := []; helperCalled := false; errorCalled := false;
     expected := expected |}.

Definition exited (f : fakeTB) : bool :=
  match fatals f with
  | [] => false
  | _ => true
  end.

Definition Fatal (msg : string) (f : fakeTB) : fakeTB :=
  {| fatals := fatals f ++ [msg]; helperCalled := helperCalled f;
     errorCalled := errorCalled f; expected := expected f |}.

#[export] Instance fakeTB_TB : Assert.TB fakeTB := {
  Helper f :=
    if exited f then f
    else {| fatals := fatals f; helperCalled := true;
            errorCalled := errorCalled f; expected := expected f |};
  Errorf format args f :=
    if exited f then f
    else
      let actual := Sprintf format args in
      if negb (String.eqb actual (expected f)) then
        Fatal (Sprintf ("incorrect error message, got:" ++ newline ++ tab ++ "%s"
                        ++ newline ++ "wanted:" ++ newline ++ tab ++ "%s")
                 [VString actual; VString (expected f)]) f
      else {| fatals := fatals f; helperCalled := helperCalled f;
              errorCalled := true; expected := expected f |}
}.

(** [func (f *fakeTB) verify()], registered by [fake] as a cleanup: it
    runs when the test ends, however it ends. *)
Definition verify (f : fakeTB) : fakeTB :=
  if negb (errorCalled f) then Fatal "Errorf not called" f
  else if negb (helperCalled f) then Fatal "Helper not called" f
  else f.

(** A test whose body is one assertion on [fake(t, expected)] passes
    when the body returns and nothing was fatal, the cleanup
    included. *)
Definition fake_test (c : Spec.call) (messageAndArgs : list value)
  (expected : string) : bool :=
  match Spec.run c messageAndArgs (fake expected) with
  | (Returned _, f) =>
      match fatals (verify f) with
      | [] => true
      | _ => false
      end
  | (Panicked _, _) => false
  end.

(** The same with [noerr(t)]. *)
Definition noerr_test (c : Spec.call) (messageAndArgs : list value) : bool :=
  match Spec.run c messageAndArgs noerr with
  | (Returned _, f) =>
      match noerr_fatals f with
      | [] => true
      | _ => false
      end
  | (Panicked _, _) => false
  end.

End Doubles.

(* ================================================================== *)
(** * Notions for the further properties                               *)
(* ================================================================== *)

Module Notions.
Import Go Spec.
#[local] Open Scope string_scope.


(** No ['%'] in the text. *)
Fixpoint plain (text : string) : bool :=
  match text with
  | EmptyString => true
  | String c rest => negb (Ascii.eqb c "%"%char) && plain rest
  end.

(** An assertion and the one that asserts the contrary. *)
Definition opposite (c : call) : option call :=
  match c with
  | CallOK a => Some (CallFalse a)
  | CallFalse a => Some (CallOK a)
  | CallEq a e => Some (CallNotEq a e)
  | CallNotEq a e => Some (CallEq a e)
  | CallDeepEqual a e => Some (CallNotDeepEqual a e)
  | CallNotDeepEqual a e => Some (CallDeepEqual a e)
  | CallMethodEqual Equal a e => Some (CallNotMethodEqual Equal a e)
  | CallNotMethodEqual Equal a e => Some (CallMethodEqual Equal a e)
  | CallNil T a => Some (CallNonNil T a)
  | CallNonNil T a => Some (CallNil T a)
  | CallZero T a => Some (CallNonZero T a)
  | CallNonZero T a => Some (CallZero T a)
  | CallEmptySlice T a => Some (CallNonEmptySlice T a)
  | CallNonEmptySlice T a => Some (CallEmptySlice T a)
  | CallEmptyMap K V a => Some (CallNonEmptyMap K V a)
  | CallNonEmptyMap K V a => Some (CallEmptyMap K V a)
  | CallSuccess _ | CallError _ _ | CallErrorMsg _ _ | CallPanicMsg _ _ => None
  end.

(** The operands a call compares with [==] or [!=] at its type
    parameter. *)
Definition compared (c : call) : option (value * value) :=
  match c with
  | CallEq a e | CallNotEq a e => Some (a, e)
  | CallZero T a | CallNonZero T a => Some (a, zero_value T)
  | _ => None
  end.

(** Induction on errors, through the wrapped cause. *)
Section ErrorInduction.
Variable P : error -> Prop.
Hypothesis Hleaf : forall dyn msg, P (mkError dyn msg None).
Hypothesis Hwrap : forall dyn msg inner, P inner -> P (mkError dyn msg (Some inner)).

End ErrorInduction.

(** An error with no text, as [errors.New] makes of the empty string. *)
Definition silent : error := mkError "*errors.errorString" EmptyString None.

End Notions.

(* ================================================================== *)
(** * Proof tools                                                      *)
(* ================================================================== *)

Import Go Spec.
Open Scope string_scope.

#[local] Arguments print_arg : simpl never.

Create Rewrite HintDb fmt.

(** Runs [Sprintf] through a literal format and rewrites the operands
    with the [fmt] equations. *)
Ltac fmt :=
  cbn [Sprintf Ascii.eqb Bool.eqb extra]; autorewrite with fmt; cbn [append];
  try reflexivity.

(** Opens a call down to the reporter's methods. *)
Ltac unfold_assert :=
  unfold run, observed, result_of, trace_of,
    Assert.OK, Assert.False, Assert.Eq, Assert.NotEq, Assert.DeepEqual,
    Assert.NotDeepEqual, Assert.MethodEqual, Assert.NotMethodEqual,
    Assert.Nil, Assert.NonNil, Assert.Zero, Assert.NonZero,
    Assert.EmptySlice, Assert.NonEmptySlice, Assert.EmptyMap,
    Assert.NonEmptyMap, Assert.Error, Assert.ErrorMsg, Assert.Success,
    Assert.PanicMsg, Assert.capturePanic,
    Assert.bind, Assert.ret, Assert.eval, Assert.t_Helper, Assert.t_Errorf.

(** Splits on every scrutinee that is not itself a [match]. *)
Ltac case_split :=
  repeat match goal with
         | |- context [match ?x with _ => _ end] =>
             lazymatch x with
             | context [match _ with _ => _ end] => fail
             | _ => destruct x eqn:?
             end
         end.

(** Both ways [FormatPrefix] can end. *)
Ltac on_prefix tail := destruct (Assert.FormatPrefix tail); cbn; fmt.

(* ================================================================== *)
(** * Lemmas                                                           *)
(* ================================================================== *)

Lemma append_empty_r (s : string) : s ++ EmptyString = s.
Proof. induction s as [|c s IH]; simpl; [reflexivity | now rewrite IH]. Qed.

(** Under [%v] every operand is printable: the bad-verb printer is never
    consulted. *)
Lemma print_value_v (bad bad' : value -> string) (v : value) :
  forall top, print_value bad "v"%char top v = print_value bad' "v"%char top v.
Proof.
  induction v as [ | | | | | | T addr x IH | | T xs IH | | K V es IH ]
    using value_nested_ind; intro top; simpl; try reflexivity.
  - destruct (top && is_container x); [now rewrite IH | reflexivity].
  - replace (map (print_value bad "v"%char false) xs)
      with (map (print_value bad' "v"%char false) xs); [reflexivity |].
    apply map_ext_Forall.
    eapply Forall_impl; [| exact IH]. intros y Hy. symmetry. apply Hy.
  - match goal with
    | |- context [sort_entries (map ?f es)] =>
        match goal with
        | |- _ = ?rhs =>
            match rhs with
            | context [sort_entries (map ?g es)] =>
                replace (map f es) with (map g es); [reflexivity |]
            end
        end
    end.
    apply map_ext_Forall.
    eapply Forall_impl; [| exact IH]. intros [k y] [Hk Hy]; simpl in *.
    now rewrite Hk, Hy.
Qed.

Lemma print_arg_v (v : value) : print_arg "v"%char v = fmt_v v.
Proof. unfold print_arg, fmt_v. simpl. apply print_value_v. Qed.

Lemma print_arg_s (s : string) : print_arg "s"%char (VString s) = s.
Proof. reflexivity. Qed.

Lemma print_arg_T (v : value) : print_arg "T"%char v = type_name v.
Proof. reflexivity. Qed.

Lemma fmt_v_string (s : string) : fmt_v (VString s) = s.
Proof. reflexivity. Qed.

Lemma fmt_v_error (a : error) : fmt_v (VError a) = error_Error a.
Proof. reflexivity. Qed.

#[global] Hint Rewrite print_arg_v print_arg_s print_arg_T fmt_v_string fmt_v_error
  append_empty_r : fmt.

Lemma run_replay {S : Type} `{Assert.TB S} (c : call) (tail : list value) (s : S) :
  run c tail s = (result_of (run c tail), replay (trace_of (run c tail)) s).
Proof.
  destruct c; unfold_assert; cbn [fst snd]; case_split; reflexivity.
Qed.

Lemma gotype_eqb_eq (a b : gotype) : gotype_eqb a b = true -> a = b.
Proof.
  revert b; induction a; intros [] E; simpl in E; try discriminate;
    try reflexivity.
  - f_equal; auto.
  - f_equal; auto.
  - apply andb_prop in E as [E1 E2]. f_equal; auto.
Qed.

Lemma go_eq_zero (T : gotype) (a : value) :
  go_eq a (zero_value T) = Returned true -> a = zero_value T.
Proof.
  destruct T, a; simpl; intro E; try discriminate;
    try (injection E as E); try reflexivity.
  - apply Bool.eqb_prop in E. now subst.
  - apply Z.eqb_eq in E. now subst.
  - apply String.eqb_eq in E. now subst.
  - apply andb_prop in E as [E1 E2]. apply gotype_eqb_eq in E1. subst.
    destruct target as [[? ?]|]; [discriminate | reflexivity].
  - destruct (gotype_eqb elem T); discriminate.
  - destruct (gotype_eqb key T1 && gotype_eqb val T2); discriminate.
Qed.

Lemma observed_run (c : call) (tail : list value) :
  observed (run c tail) = behaviour c tail.
Proof.
  unfold behaviour.
  destruct c; unfold_assert;
    cbn [fst snd condition marks_first failure_marks wording failed_wording].
  - destruct a; on_prefix tail.
  - destruct a; on_prefix tail.
  - unfold go_ne; destruct (go_eq a e) as [[|]|]; on_prefix tail.
  - unfold go_ne; destruct (go_eq a e) as [[|]|]; on_prefix tail.
  - destruct (Go.DeepEqual a e); on_prefix tail.
  - destruct (Go.DeepEqual a e); on_prefix tail.
  - destruct (Equal e a); on_prefix tail.
  - destruct (Equal e a); on_prefix tail.
  - destruct a as [[addr x]|]; on_prefix tail.
  - destruct a as [[addr x]|]; on_prefix tail.
  - unfold go_ne; destruct (go_eq a (zero_value T)) as [[|]|]; on_prefix tail.
  - unfold go_ne; destruct (go_eq a (zero_value T)) as [[|]|] eqn:E;
      [apply go_eq_zero in E; subst a | |]; on_prefix tail.
  - destruct a as [[|x xs]|]; on_prefix tail.
  - destruct a as [[|x xs]|]; on_prefix tail.
  - destruct a as [[|x xs]|]; on_prefix tail.
  - destruct a as [[|x xs]|]; on_prefix tail.
  - destruct a; on_prefix tail.
  - destruct e as [e|], a as [a|]; cbn [errors_Is];
      [destruct (chain_has a e) | | |]; on_prefix tail.
  - destruct (String.eqb e EmptyString), a as [a|];
      try destruct (String.eqb (error_Error a) e); on_prefix tail.
  - unfold captured.
    destruct (f tt) as [[]|v]; cbn [recover]; [on_prefix tail |].
    destruct v; try destruct (String.eqb (Sprint _) e); on_prefix tail.
Qed.

Lemma render_marks (tr : list event) (n : nat) :
  map render tr = repeat Marked n -> tr = repeat EvHelper n.
Proof.
  revert n; induction tr as [|ev tr IH]; intros [|n] E; simpl in E;
    try discriminate; [reflexivity |].
  destruct ev; simpl in E; [| discriminate].
  injection E as E. simpl. f_equal. now apply IH.
Qed.

Lemma render_marks_report (tr : list event) (n : nat) (m : string) :
  map render tr = (repeat Marked n ++ [Reported m])%list ->
  exists format args,
    tr = (repeat EvHelper n ++ [EvErrorf format args])%list /\
    Sprintf format args = m.
Proof.
  revert n; induction tr as [|ev tr IH]; intros n E.
  - destruct n; discriminate.
  - destruct n as [|n]; simpl in E.
    + destruct ev as [|format args]; simpl in E; [discriminate |].
      injection E as E1 E2. destruct tr; [| discriminate].
      exists format, args. split; [reflexivity | assumption].
    + destruct ev; simpl in E; [| discriminate].
      injection E as E. destruct (IH n E) as (format & args & -> & Hm).
      exists format, args. split; [reflexivity | assumption].
Qed.

Lemma helper_calls_marks (n : nat) (rest : list event) :
  helper_calls (repeat EvHelper n ++ rest) = n + helper_calls rest.
Proof.
  unfold helper_calls. induction n as [|n IH]; simpl; [reflexivity | now rewrite IH].
Qed.

Lemma errorf_calls_marks (n : nat) (rest : list event) :
  errorf_calls (repeat EvHelper n ++ rest) = errorf_calls rest.
Proof.
  unfold errorf_calls. induction n as [|n IH]; simpl; [reflexivity | exact IH].
Qed.

Lemma observed_inv {A : Type} (c : Assert.M (list event) A) r (l : list seen) :
  observed c = (r, l) -> result_of c = r /\ map render (trace_of c) = l.
Proof. unfold observed. intro E. injection E as E1 E2. now split. Qed.

(** [Success] decides without looking at the reporter, and only adds
    to what the reporter has received. *)
Lemma Success_result {S : Type} `{Assert.TB S} (a : option error)
  (tail : list value) (s s' : S) :
  fst (Assert.Success a tail s) = fst (Assert.Success a tail s').
Proof.
  unfold_assert. destruct a; [| reflexivity].
  destruct (Assert.FormatPrefix tail); reflexivity.
Qed.

Lemma Success_trace (a : option error) (tail : list value) (s : list event) :
  snd (Assert.Success a tail s) = (s ++ trace_of (Assert.Success a tail))%list.
Proof.
  unfold_assert. destruct a; cbn; [| now rewrite app_nil_r].
  destruct (Assert.FormatPrefix tail); cbn; now rewrite <- ?app_assoc.
Qed.

(** [PanicMsg] sees [f] only through the captured value. *)
Lemma captured_capturePanic (f : func) (v : value) :
  Assert.capturePanic f = Returned v -> captured f = v.
Proof. unfold Assert.capturePanic, captured. intro E. now injection E. Qed.

Lemma PanicMsg_behaviour (f : func) (e : string) (tail : list value) :
  observed (Assert.PanicMsg f e tail) = behaviour (CallPanicMsg f e) tail.
Proof. exact (observed_run (CallPanicMsg f e) tail). Qed.

Lemma PanicMsg_no_fault (f : func) (e : string) (tail : list value) (p : string) :
  Assert.capturePanic f = Returned VNil ->
  Assert.FormatPrefix tail = Returned p ->
  observed (Assert.PanicMsg f e tail) =
    (Returned false,
     [Marked; Reported ("** " ++ p ++ "succeeded, wanted to panic with: " ++ e)]).
Proof.
  intros Hf Hp. apply captured_capturePanic in Hf.
  rewrite PanicMsg_behaviour. unfold behaviour.
  cbn [condition wording failure_marks]. now rewrite Hf, Hp.
Qed.

(* ================================================================== *)
(** * The claims                                                       *)
(* ================================================================== *)

(** C1, as amended.  When the asserted condition holds, the call
    returns true and does not call [Errorf], whatever the reporter and
    the message tail; it does not call [Helper] either, except for
    [MethodEqual], [NotMethodEqual] and [Error] with a nil expected
    error, which call [Helper] exactly once. *)
Theorem success_reports_nothing {S : Type} `{Assert.TB S}
  (c : call) (tail : list value) (s : S) :
  condition c = Returned true ->
  run c tail s = (Returned true, if marks_first c then Assert.Helper s else s) /\
  errorf_calls (trace_of (run c tail)) = 0 /\
  helper_calls (trace_of (run c tail)) = (if marks_first c then 1 else 0).
Proof.
  intro Hc.
  pose proof (observed_run c tail) as E. unfold behaviour in E.
  rewrite Hc in E. apply observed_inv in E as [Hr Ht].
  assert (Htr : trace_of (run c tail) = if marks_first c then [EvHelper] else []).
  { destruct (marks_first c).
    - now apply (render_marks _ 1).
    - now apply (render_marks _ 0). }
  rewrite run_replay, Hr, Htr.
  destruct (marks_first c); repeat split; reflexivity.
Qed.

(** C1 at [OK(t, true, "with %v", 1)]. *)
Lemma success_reports_nothing_witness :
  run (CallOK true) [VString "with %v"; VInt 1] ([] : list event) = (Returned true, []) /\
  errorf_calls (trace_of (run (CallOK true) [VString "with %v"; VInt 1])) = 0 /\
  helper_calls (trace_of (run (CallOK true) [VString "with %v"; VInt 1])) = 0.
Proof.
  apply (success_reports_nothing (CallOK true) [VString "with %v"; VInt 1] []).
  reflexivity.
Defined.

(** C1 as stated fails: the conditions of [MethodEqual(t, 1, 1)] and of
    [Error(t, nil, nil)] hold, and each of the two calls [Helper]. *)
Lemma success_marks_helper :
  condition (CallMethodEqual int_Equal (VInt 1) (VInt 1)) = Returned true /\
  trace_of (run (CallMethodEqual int_Equal (VInt 1) (VInt 1)) []) = [EvHelper] /\
  condition (CallError None None) = Returned true /\
  trace_of (run (CallError None None) []) = [EvHelper].
Proof. repeat split. Qed.

(** C2, as amended.  When the asserted condition fails, the call
    first calls [Helper]: once, and twice for [Error] with a nil
    expected error, which marks its own frame before [Success] marks
    its.  With a message tail that is empty or starts with a string,
    it then calls [Errorf] exactly once, the reported message is
    ["** " ++ prefix ++ wording], and it returns false.  With a tail
    that starts with any other value, [FormatPrefix] panics after the
    marks and [Errorf] is not called. *)
Theorem failure_reports_once (c : call) (tail : list value) :
  condition c = Returned false ->
  helper_calls (trace_of (run c tail)) = failure_marks c /\
  match Assert.FormatPrefix tail with
  | Returned p =>
      result_of (run c tail) = Returned false /\
      errorf_calls (trace_of (run c tail)) = 1 /\
      map render (trace_of (run c tail)) =
        (repeat Marked (failure_marks c) ++ [Reported ("** " ++ p ++ wording c)])%list
  | Panicked v =>
      result_of (run c tail) = Panicked v /\
      errorf_calls (trace_of (run c tail)) = 0
  end.
Proof.
  intro Hc.
  pose proof (observed_run c tail) as E. unfold behaviour in E.
  rewrite Hc in E.
  destruct (Assert.FormatPrefix tail) as [p|v];
    apply observed_inv in E as [Hr Ht].
  - destruct (render_marks_report _ _ _ Ht) as (format & args & Htr & _).
    rewrite Htr, helper_calls_marks, errorf_calls_marks.
    repeat split; try assumption; try reflexivity.
    + cbn. lia.
    + now rewrite <- Htr.
  - apply render_marks in Ht. rewrite Ht.
    rewrite <- (app_nil_r (repeat EvHelper _)).
    rewrite helper_calls_marks, errorf_calls_marks.
    repeat split; try assumption; try reflexivity. cbn. lia.
Qed.

(** C2 at [Eq(t, 10, 42, "n=%d", 3)]. *)
Lemma failure_reports_once_witness :
  helper_calls (trace_of (run (CallEq (VInt 10) (VInt 42)) [VString "n=%d"; VInt 3])) = 1 /\
  result_of (run (CallEq (VInt 10) (VInt 42)) [VString "n=%d"; VInt 3]) = Returned false /\
  errorf_calls (trace_of (run (CallEq (VInt 10) (VInt 42)) [VString "n=%d"; VInt 3])) = 1 /\
  map render (trace_of (run (CallEq (VInt 10) (VInt 42)) [VString "n=%d"; VInt 3])) =
    [Marked; Reported "** n=3: got 10, wanted 42"].
Proof.
  apply (failure_reports_once (CallEq (VInt 10) (VInt 42)) [VString "n=%d"; VInt 3]).
  reflexivity.
Defined.

(** C2 as stated fails: [Error(t, ErrNotExist, nil)] fails and calls
    [Helper] twice; [OK(t, false, 42)] fails, panics and never calls
    [Errorf]. *)
Lemma failure_marks_twice_or_panics :
  (condition (CallError (Some ErrNotExist) None) = Returned false /\
   helper_calls (trace_of (run (CallError (Some ErrNotExist) None) [])) = 2) /\
  (condition (CallOK false) = Returned false /\
   errorf_calls (trace_of (run (CallOK false) [VInt 42])) = 0 /\
   exists v, result_of (run (CallOK false) [VInt 42]) = Panicked v).
Proof. repeat split. eexists. reflexivity. Qed.

(** C3, as amended.  [Error(t, a, nil, tail...)] is
    [Success(t, a, tail...)] run after one call of [Helper]: it returns
    or panics as [Success] does, and calls the reporter as [Success]
    does, after one more [Helper]. *)
Theorem Error_nil_is_Success_after_Helper {S : Type} `{Assert.TB S}
  (a : option error) (tail : list value) (s : S) :
  Assert.Error a None tail s = Assert.Success a tail (Assert.Helper s) /\
  fst (Assert.Error a None tail s) = fst (Assert.Success a tail s) /\
  trace_of (Assert.Error a None tail) = EvHelper :: trace_of (Assert.Success a tail).
Proof.
  assert (E : forall (S' : Type) (tb : Assert.TB S') (s' : S'),
             Assert.Error a None tail s' = Assert.Success a tail (Assert.Helper s'))
    by reflexivity.
  split; [apply E | split].
  - rewrite E. apply Success_result.
  - unfold trace_of. rewrite E, Success_trace. reflexivity.
Qed.

(** C3 as stated fails: [Error(t, nil, nil)] calls [Helper] where
    [Success(t, nil)] calls nothing, and the calls differ likewise on a
    non-nil error. *)
Lemma Error_nil_marks_before_Success :
  trace_of (Assert.Error None None []) = [EvHelper] /\
  trace_of (Assert.Success None []) = [] /\
  trace_of (Assert.Error (Some ErrNotExist) None []) <>
  trace_of (Assert.Success (Some ErrNotExist) []).
Proof. repeat split. discriminate. Qed.

(** C4.  [FormatPrefix] returns the empty string on an empty tail; on
    a tail that starts with a string it returns that string formatted
    with the rest of the tail, followed by [": "]; on a tail that starts
    with any other value it panics with an error whose text ends in the
    type and the value of that element; and it panics in no other
    case. *)
Theorem FormatPrefix_spec :
  Assert.FormatPrefix [] = Returned EmptyString /\
  (forall msg rest,
      Assert.FormatPrefix (VString msg :: rest) = Returned (Sprintf msg rest ++ ": ")) /\
  Assert.FormatPrefix [VString "x=%v"; VInt 7] = Returned "x=7: " /\
  (forall x rest, is_string x = false ->
      exists err,
        Assert.FormatPrefix (x :: rest) = Panicked (VError err) /\
        error_Error err =
          "when passing messageAndArgs to assertion funcs, the first extra argument must be a format string, got "
          ++ type_name x ++ " " ++ Sprint x) /\
  (forall tail v, Assert.FormatPrefix tail = Panicked v ->
      exists x rest, tail = x :: rest /\ is_string x = false).
Proof.
  repeat split.
  - intros x rest Hx.
    exists (fmt_Errorf
      "when passing messageAndArgs to assertion funcs, the first extra argument must be a format string, got %T %v"
      [x; x]).
    split.
    + destruct x; try reflexivity. discriminate.
    + unfold fmt_Errorf, error_Error. fmt.
  - intros tail v E. destruct tail as [|x rest]; [discriminate |].
    exists x, rest. split; [reflexivity |].
    destruct x; try reflexivity. discriminate.
Qed.

(** C4 at [FormatPrefix([]any{42})]. *)
Lemma FormatPrefix_spec_witness :
  exists err,
    Assert.FormatPrefix [VInt 42] = Panicked (VError err) /\
    error_Error err =
      "when passing messageAndArgs to assertion funcs, the first extra argument must be a format string, got int 42".
Proof.
  apply (proj1 (proj2 (proj2 (proj2 FormatPrefix_spec))) (VInt 42) []).
  reflexivity.
Defined.

(** C5.  [AddPrefix] splices the prefix in front of a leading format
    string, and otherwise puts the prefix and its arguments in front of
    the unchanged tail; the three documented instances follow. *)
Theorem AddPrefix_spec :
  (forall msg rest prefix args,
      Assert.AddPrefix (VString msg :: rest) prefix args =
        [VString (prefix ++ ": " ++ msg)] ++ args ++ rest)%list /\
  (forall tail prefix args,
      match tail with [] => true | x :: _ => negb (is_string x) end = true ->
      Assert.AddPrefix tail prefix args = [VString prefix] ++ args ++ tail)%list /\
  Assert.AddPrefix [] "foo.%d" [VInt 42] = [VString "foo.%d"; VInt 42] /\
  Assert.AddPrefix [VString "bar %s"; VString "boz"] "foo.%d" [VInt 42] =
    [VString "foo.%d: bar %s"; VInt 42; VString "boz"] /\
  Assert.AddPrefix [VInt 1; VInt 2; VInt 3] "foo.%d" [VInt 42] =
    [VString "foo.%d"; VInt 42; VInt 1; VInt 2; VInt 3].
Proof.
  repeat split.
  - intros tail prefix args Ht.
    destruct tail as [|x rest]; [reflexivity |].
    destruct x; try discriminate; reflexivity.
Qed.

(** C5 at a tail that starts with nil. *)
Lemma AddPrefix_spec_witness :
  Assert.AddPrefix [VNil; VString "x"] "p" [VBool true] =
    [VString "p"; VBool true; VNil; VString "x"].
Proof.
  apply (proj1 (proj2 AddPrefix_spec) [VNil; VString "x"] "p" [VBool true]).
  reflexivity.
Defined.

(** C7.  [capturePanic(f)] returns the value [f] panicked with, returns
    nil when [f] returns, and never panics itself. *)
Theorem capturePanic_spec (f : func) :
  (forall v, f tt = Panicked v -> Assert.capturePanic f = Returned v) /\
  (f tt = Returned tt -> Assert.capturePanic f = Returned VNil) /\
  (exists v, Assert.capturePanic f = Returned v).
Proof.
  unfold Assert.capturePanic. repeat split.
  - intros v E. now rewrite E.
  - intro E. now rewrite E.
  - eexists. reflexivity.
Qed.

(** C7 at the out-of-range function of the tests and at a function
    that returns. *)
Lemma capturePanic_spec_witness :
  Assert.capturePanic panickyFunc =
    Returned (VError (mkError "runtime.boundsError"
                "runtime error: index out of range [2] with length 2" None)) /\
  Assert.capturePanic completes = Returned VNil.
Proof.
  split.
  - apply (proj1 (capturePanic_spec panickyFunc)). reflexivity.
  - apply (proj1 (proj2 (capturePanic_spec completes))). reflexivity.
Defined.

(** C8.  Whatever the reporter does with the calls it receives, an
    assertion returns true exactly when its condition holds; it returns
    false exactly when its condition fails and the message tail is
    well formed. *)
Theorem result_is_condition {S : Type} `{Assert.TB S}
  (c : call) (tail : list value) (s : S) :
  (fst (run c tail s) = Returned true <-> condition c = Returned true) /\
  (fst (run c tail s) = Returned false <->
   condition c = Returned false /\ exists p, Assert.FormatPrefix tail = Returned p).
Proof.
  rewrite run_replay. cbn [fst].
  pose proof (observed_run c tail) as E. unfold behaviour in E.
  apply (f_equal fst) in E. cbn [observed fst] in E. rewrite E. clear E.
  destruct (condition c) as [[|]|v]; cbn [fst].
  - split; split; try reflexivity; try discriminate. intros [? _]. discriminate.
  - destruct (Assert.FormatPrefix tail) as [p|v]; cbn [fst]; split; split;
      try discriminate; try reflexivity.
    + intros _. split; [reflexivity | now exists p].
    + intros [_ [p Hp]]. discriminate.
  - split; split; try discriminate. intros [? _]. discriminate.
Qed.

(** C6.  With [prefix] the formatted message tail, [PanicMsg(t, f, e)]
    reports ["** prefix" ++ "succeeded, wanted to panic with: e"] and
    returns false when nothing was captured; reports
    ["** prefix" ++ "paniced with: text, wanted: e"] and returns false
    when the captured value prints as a [text] other than [e]; and
    returns true without a call to the reporter when it prints as
    [e]. *)
Theorem PanicMsg_cases (f : func) (e : string) (tail : list value) (p : string) :
  Assert.FormatPrefix tail = Returned p ->
  (Assert.capturePanic f = Returned VNil ->
   observed (Assert.PanicMsg f e tail) =
     (Returned false,
      [Marked; Reported ("** " ++ p ++ "succeeded, wanted to panic with: " ++ e)])) /\
  (forall v, Assert.capturePanic f = Returned v -> v <> VNil -> Sprint v <> e ->
   observed (Assert.PanicMsg f e tail) =
     (Returned false,
      [Marked; Reported ("** " ++ p ++ "paniced with: " ++ Sprint v ++ ", wanted: " ++ e)])) /\
  (forall v, Assert.capturePanic f = Returned v -> v <> VNil -> Sprint v = e ->
   observed (Assert.PanicMsg f e tail) = (Returned true, [])).
Proof.
  intro Hp. split; [| split].
  - intro Hf. now apply PanicMsg_no_fault.
  - intros v Hf Hv Hne. apply captured_capturePanic in Hf.
    apply String.eqb_neq in Hne.
    rewrite PanicMsg_behaviour. unfold behaviour.
    cbn [condition wording failure_marks]. rewrite Hf.
    destruct v; try congruence; now rewrite Hne, Hp.
  - intros v Hf Hv He. apply captured_capturePanic in Hf.
    apply String.eqb_eq in He.
    rewrite PanicMsg_behaviour. unfold behaviour.
    cbn [condition wording failure_marks marks_first]. rewrite Hf.
    destruct v; try congruence; now rewrite He.
Qed.

(** C6 at a function that returns and at the out-of-range function of
    the tests, with the tail ["step %d", 2]. *)
Lemma PanicMsg_cases_witness :
  observed (Assert.PanicMsg completes "foo" [VString "step %d"; VInt 2]) =
    (Returned false, [Marked; Reported "** step 2: succeeded, wanted to panic with: foo"]) /\
  observed (Assert.PanicMsg panickyFunc "foo" [VString "step %d"; VInt 2]) =
    (Returned false,
     [Marked; Reported "** step 2: paniced with: runtime error: index out of range [2] with length 2, wanted: foo"]) /\
  observed (Assert.PanicMsg panickyFunc
              "runtime error: index out of range [2] with length 2"
              [VString "step %d"; VInt 2]) = (Returned true, []).
Proof.
  split; [| split].
  - apply (proj1 (PanicMsg_cases completes "foo" [VString "step %d"; VInt 2]
                    "step 2: " eq_refl)).
    reflexivity.
  - apply (proj1 (proj2 (PanicMsg_cases panickyFunc "foo" [VString "step %d"; VInt 2]
                    "step 2: " eq_refl))
             (VError (mkError "runtime.boundsError"
                "runtime error: index out of range [2] with length 2" None))).
    + reflexivity.
    + discriminate.
    + discriminate.
  - apply (proj2 (proj2 (PanicMsg_cases panickyFunc
                    "runtime error: index out of range [2] with length 2"
                    [VString "step %d"; VInt 2] "step 2: " eq_refl))
             (VError (mkError "runtime.boundsError"
                "runtime error: index out of range [2] with length 2" None))).
    + reflexivity.
    + discriminate.
    + reflexivity.
Defined.

(** C9, as amended.  [EmptySlice], [NonEmptySlice], [EmptyMap] and
    [NonEmptyMap] do on a nil slice or map what they do on an empty one,
    for every element, key and value type: same result, same calls, same
    message.  [Nil] and [NonNil] take pointers only, and tell the nil
    pointer from every other one, whatever it points to. *)
Theorem nil_container_is_empty_container (T K V : gotype) (tail : list value) :
  (observed (Assert.EmptySlice T None tail) = (Returned true, []) /\
   observed (Assert.EmptySlice T (Some []) tail) = (Returned true, [])) /\
  (observed (Assert.NonEmptySlice T None tail) =
   observed (Assert.NonEmptySlice T (Some []) tail) /\
   result_of (Assert.NonEmptySlice T None tail) <> Returned true) /\
  (observed (Assert.EmptyMap K V None tail) = (Returned true, []) /\
   observed (Assert.EmptyMap K V (Some []) tail) = (Returned true, [])) /\
  (observed (Assert.NonEmptyMap K V None tail) =
   observed (Assert.NonEmptyMap K V (Some []) tail) /\
   result_of (Assert.NonEmptyMap K V None tail) <> Returned true) /\
  (observed (Assert.Nil T None tail) = (Returned true, []) /\
   forall addr x, result_of (Assert.Nil T (Some (addr, x)) tail) <> Returned true) /\
  (result_of (Assert.NonNil T None tail) <> Returned true /\
   forall addr x, observed (Assert.NonNil T (Some (addr, x)) tail) = (Returned true, [])).
Proof.
  unfold_assert; cbn.
  repeat split; try intros addr x; destruct (Assert.FormatPrefix tail); cbn;
    try discriminate; reflexivity.
Qed.

(** C9 as stated fails for [Nil] and [NonNil]: on the nil [*[]int]
    and on a pointer to an empty [[]int] they give opposite results. *)
Lemma Nil_tells_nil_from_empty :
  result_of (Assert.Nil (TSlice TInt) None []) = Returned true /\
  observed (Assert.Nil (TSlice TInt) (Some (192%N, VSlice TInt (Some []))) []) =
    (Returned false, [Marked; Reported "** got &[], wanted nil"]) /\
  result_of (Assert.NonNil (TSlice TInt) None []) = Returned false /\
  result_of (Assert.NonNil (TSlice TInt) (Some (192%N, VSlice TInt (Some []))) []) =
    Returned true.
Proof. repeat split. Qed.

(** C10.  When [f] panics with the value nil, [capturePanic] returns
    nil and [PanicMsg] does what it does for an [f] that returns: for
    every expected text it reports that [f] succeeded and returns
    false. *)
Theorem PanicMsg_nil_panic {S : Type} `{Assert.TB S}
  (f : func) (e : string) (tail : list value) (p : string) (s : S) :
  f tt = Panicked VNil ->
  Assert.FormatPrefix tail = Returned p ->
  Assert.capturePanic f = Returned VNil /\
  observed (Assert.PanicMsg f e tail) =
    (Returned false,
     [Marked; Reported ("** " ++ p ++ "succeeded, wanted to panic with: " ++ e)]) /\
  Assert.PanicMsg f e tail s = Assert.PanicMsg completes e tail s.
Proof.
  intros Hf Hp.
  assert (Hc : Assert.capturePanic f = Returned VNil)
    by (unfold Assert.capturePanic; now rewrite Hf).
  split; [exact Hc | split].
  - now apply PanicMsg_no_fault.
  - unfold Assert.PanicMsg, Assert.bind at 1 3, Assert.eval at 1 3. now rewrite Hc.
Qed.

(** C10 at [panic(nil)] and the expected text ["boom"]. *)
Lemma PanicMsg_nil_panic_witness :
  Assert.capturePanic panics_nil = Returned VNil /\
  observed (Assert.PanicMsg panics_nil "boom" []) =
    (Returned false, [Marked; Reported "** succeeded, wanted to panic with: boom"]) /\
  Assert.PanicMsg panics_nil "boom" [] ([] : list event) =
  Assert.PanicMsg completes "boom" [] [].
Proof.
  apply (PanicMsg_nil_panic panics_nil "boom" [] EmptyString []); reflexivity.
Defined.

(* ================================================================== *)
(** * The package's tests, replayed                                    *)
(* ================================================================== *)

Example test_OK :
  seen_by_test (CallOK true) [] = (Returned true, []) /\
  seen_by_test (CallOK false) [] =
    (Returned false, [Marked; Reported "** got false, wanted true"]) /\
  seen_by_test (CallOK true) [VString "with %v"; VInt 1] = (Returned true, []) /\
  seen_by_test (CallOK false) [VString "with %v"; VInt 42] =
    (Returned false, [Marked; Reported "** with 42: got false, wanted true"]).
Proof. repeat split. Qed.

Example test_False :
  seen_by_test (CallFalse false) [] = (Returned true, []) /\
  seen_by_test (CallFalse true) [] =
    (Returned false, [Marked; Reported "** got true, wanted false"]).
Proof. repeat split. Qed.

Example test_Eq_NotEq :
  seen_by_test (CallEq (VInt 42) (VInt 42)) [] = (Returned true, []) /\
  seen_by_test (CallEq (VInt 10) (VInt 42)) [] =
    (Returned false, [Marked; Reported "** got 10, wanted 42"]) /\
  seen_by_test (CallNotEq (VInt 12) (VInt 42)) [] = (Returned true, []) /\
  seen_by_test (CallNotEq (VInt 42) (VInt 42)) [] =
    (Returned false, [Marked; Reported "** got 42, wanted anything else"]).
Proof. repeat split. Qed.

Example test_DeepEqual :
  seen_by_test (CallDeepEqual (VSlice TInt (Some [VInt 12; VInt 34]))
                              (VSlice TInt (Some [VInt 12; VInt 34]))) [] =
    (Returned true, []) /\
  seen_by_test (CallDeepEqual (VSlice TInt (Some [VInt 42]))
                              (VSlice TInt (Some [VInt 12; VInt 34]))) [] =
    (Returned false, [Marked; Reported "** got [42], wanted [12 34]"]) /\
  seen_by_test (CallNotDeepEqual (VSlice TInt (Some [VInt 12; VInt 34]))
                                 (VSlice TInt (Some [VInt 12]))) [] =
    (Returned true, []) /\
  seen_by_test (CallNotDeepEqual (VSlice TInt (Some [VInt 12; VInt 34]))
                                 (VSlice TInt (Some [VInt 12; VInt 34]))) [] =
    (Returned false, [Marked; Reported "** got [12 34], wanted anything else"]) /\
  DeepEqual (VMap TString TInt (Some [(VString "a", VInt 1); (VString "b", VInt 2)]))
            (VMap TString TInt (Some [(VString "b", VInt 2); (VString "a", VInt 1)]))
    = true /\
  DeepEqual (VSlice TInt None) (VSlice TInt (Some [])) = false.
Proof. repeat split. Qed.

Example test_Nil_NonNil :
  seen_by_test (CallNil TInt None) [] = (Returned true, []) /\
  seen_by_test (CallNil TInt (Some (49152%N, VInt 42))) [] =
    (Returned false, [Marked; Reported "** got &42, wanted nil"]) /\
  seen_by_test (CallNonNil TInt (Some (49152%N, VInt 42))) [] = (Returned true, []) /\
  seen_by_test (CallNonNil TInt None) [] =
    (Returned false, [Marked; Reported "** got nil *int, wanted non-nil"]).
Proof. repeat split. Qed.

Example test_Zero :
  seen_by_test (CallZero TInt (VInt 0)) [] = (Returned true, []) /\
  seen_by_test (CallZero TBool (VBool false)) [] = (Returned true, []) /\
  seen_by_test (CallZero TString (VString EmptyString)) [] = (Returned true, []) /\
  seen_by_test (CallZero TAny VNil) [] = (Returned true, []) /\
  seen_by_test (CallZero TInt (VInt 42)) [] =
    (Returned false, [Marked; Reported "** got 42, wanted zero value 0"]) /\
  seen_by_test (CallZero TBool (VBool true)) [] =
    (Returned false, [Marked; Reported "** got true, wanted zero value false"]) /\
  seen_by_test (CallZero TString (VString "abc")) [] =
    (Returned false, [Marked; Reported "** got abc, wanted zero value "]) /\
  seen_by_test (CallZero TAny (VInt 42)) [] =
    (Returned false, [Marked; Reported "** got 42, wanted zero value <nil>"]).
Proof. repeat split. Qed.

Example test_NonZero :
  seen_by_test (CallNonZero TInt (VInt 42)) [] = (Returned true, []) /\
  seen_by_test (CallNonZero TAny (VInt 42)) [] = (Returned true, []) /\
  seen_by_test (CallNonZero TInt (VInt 0)) [] =
    (Returned false, [Marked; Reported "** got zero value 0, wanted non-zero"]) /\
  seen_by_test (CallNonZero TBool (VBool false)) [] =
    (Returned false, [Marked; Reported "** got zero value false, wanted non-zero"]) /\
  seen_by_test (CallNonZero TString (VString EmptyString)) [] =
    (Returned false, [Marked; Reported "** got zero value , wanted non-zero"]) /\
  seen_by_test (CallNonZero TAny VNil) [] =
    (Returned false, [Marked; Reported "** got zero value <nil>, wanted non-zero"]).
Proof. repeat split. Qed.

Example test_slices_and_maps :
  seen_by_test (CallEmptySlice TInt None) [] = (Returned true, []) /\
  seen_by_test (CallEmptySlice TInt (Some [])) [] = (Returned true, []) /\
  seen_by_test (CallEmptySlice TInt (Some [VInt 42])) [] =
    (Returned false, [Marked; Reported "** got [42], wanted empty slice"]) /\
  seen_by_test (CallNonEmptySlice TInt (Some [VInt 42])) [] = (Returned true, []) /\
  seen_by_test (CallNonEmptySlice TInt (Some [])) [] =
    (Returned false, [Marked; Reported "** got empty []int, wanted non-empty"]) /\
  seen_by_test (CallEmptyMap TInt TString None) [] = (Returned true, []) /\
  seen_by_test (CallEmptyMap TInt TString (Some [])) [] = (Returned true, []) /\
  seen_by_test (CallEmptyMap TInt TString (Some [(VInt 42, VString "x")])) [] =
    (Returned false, [Marked; Reported "** got map[42:x], wanted empty map"]) /\
  seen_by_test (CallNonEmptyMap TInt TString (Some [(VInt 42, VString "x")])) [] =
    (Returned true, []) /\
  seen_by_test (CallNonEmptyMap TInt TString (Some [])) [] =
    (Returned false, [Marked; Reported "** got empty map[int]string, wanted non-empty"]).
Proof. repeat split. Qed.

Example test_Success_Error :
  seen_by_test (CallSuccess None) [] = (Returned true, []) /\
  seen_by_test (CallSuccess (Some ErrNotExist)) [] =
    (Returned false, [Marked; Reported "** failed: file does not exist"]) /\
  seen_by_test (CallError (Some ErrNotExist) (Some ErrNotExist)) [] = (Returned true, []) /\
  seen_by_test (CallError None None) [] = (Returned true, [Marked]) /\
  seen_by_test (CallError (Some ErrNotExist) None) [] =
    (Returned false, [Marked; Marked; Reported "** failed: file does not exist"]) /\
  seen_by_test (CallError (Some ErrExist) (Some ErrNotExist)) [] =
    (Returned false,
     [Marked; Reported "** failed with: file already exists, wanted: file does not exist"]) /\
  seen_by_test (CallError None (Some ErrNotExist)) [] =
    (Returned false,
     [Marked; Reported "** succeeded, wanted to fail with: file does not exist"]) /\
  seen_by_test (CallError (Some (mkError "*fs.PathError" "open x: file does not exist"
                                   (Some ErrNotExist)))
                          (Some ErrNotExist)) [] = (Returned true, []).
Proof. repeat split. Qed.

Example test_ErrorMsg :
  seen_by_test (CallErrorMsg (Some ErrNotExist) "file does not exist") [] =
    (Returned true, []) /\
  seen_by_test (CallErrorMsg None EmptyString) [] = (Returned true, []) /\
  seen_by_test (CallErrorMsg (Some ErrNotExist) EmptyString) [] =
    (Returned false, [Marked; Reported "** failed: file does not exist"]) /\
  seen_by_test (CallErrorMsg (Some ErrExist) "file does not exist") [] =
    (Returned false,
     [Marked; Reported "** failed with: file already exists, wanted: file does not exist"]) /\
  seen_by_test (CallErrorMsg None "file does not exist") [] =
    (Returned false,
     [Marked; Reported "** succeeded, wanted to fail with: file does not exist"]).
Proof. repeat split. Qed.

Example test_PanicMsg :
  seen_by_test (CallPanicMsg panickyFunc
                  "runtime error: index out of range [2] with length 2") [] =
    (Returned true, []) /\
  seen_by_test (CallPanicMsg completes "foo") [] =
    (Returned false, [Marked; Reported "** succeeded, wanted to panic with: foo"]) /\
  seen_by_test (CallPanicMsg panickyFunc "foo") [] =
    (Returned false,
     [Marked;
      Reported "** paniced with: runtime error: index out of range [2] with length 2, wanted: foo"]).
Proof. repeat split. Qed.

Example test_FormatPrefix :
  Assert.FormatPrefix [] = Returned EmptyString /\
  Assert.FormatPrefix [VString "foo"] = Returned "foo: " /\
  Assert.FormatPrefix [VString "foo v=%v"; VInt 42] = Returned "foo v=42: " /\
  seen_by_test
    (CallPanicMsg (fun _ => match Assert.FormatPrefix [VInt 42] with
                            | Returned _ => Returned tt
                            | Panicked v => Panicked v
                            end)
       "when passing messageAndArgs to assertion funcs, the first extra argument must be a format string, got int 42")
    [] = (Returned true, []).
Proof. repeat split. Qed.

Example fmt_samples :
  Sprintf "%d%%" [VInt 3; VNil; VString "a"] = "3%%!(EXTRA <nil>, string=a)" /\
  Sprintf "%s %d %T" [VInt 42; VString "x"] = "%!s(int=42) %!d(string=x) %!T(MISSING)" /\
  Sprintf "%v %v %T %T"
    [VSlice TInt (Some [VInt 12; VInt (-34)]);
     VMap TInt TString (Some [(VInt 42, VString "x"); (VInt 7, VString "y")]);
     VPtr TInt None; VMap TInt TString None]
    = "[12 -34] map[7:y 42:x] *int map[int]string" /\
  Sprintf "%v %v" [VPtr (TSlice TInt) (Some (16%N, VSlice TInt (Some [])));
                   VPtr TInt (Some (255%N, VInt 1))] = "&[] 0xff".
Proof. repeat split. Qed.

(* ================================================================== *)
(** * Further properties                                               *)
(* ================================================================== *)

Import Doubles Notions.

(** ** Formats, piece by piece *)

Lemma append_assoc (a b c : string) : (a ++ b) ++ c = a ++ b ++ c.
Proof. induction a as [|x a IH]; simpl; [reflexivity | now rewrite IH]. Qed.

Lemma Sprintf_char (c : ascii) (rest : string) (a : list value) :
  c <> "%"%char -> Sprintf (String c rest) a = String c (Sprintf rest a).
Proof.
  intro Hc.
  destruct c as [[] [] [] [] [] [] [] []]; try reflexivity.
  now contradiction Hc.
Qed.




Lemma Sprintf_plain (text : string) (a : list value) :
  plain text = true -> Sprintf text a = text ++ extra a.
Proof.
  induction text as [|c rest IH]; intro Hp; [reflexivity |].
  simpl in Hp. apply andb_prop in Hp as [Hc Hp].
  rewrite Sprintf_char.
  - cbn [append]. now rewrite IH.
  - intro E. subst c. discriminate.
Qed.

(** The outcome of a call, on any reporter. *)
Lemma run_outcome {S : Type} `{Assert.TB S} (c : call) (tail : list value) (s : S) :
  fst (run c tail s) = fst (behaviour c tail).
Proof.
  rewrite run_replay, <- observed_run. reflexivity.
Qed.

Lemma AddPrefix_head (tail : list value) (prefix : string) (args : list value) :
  exists template rest,
    Assert.AddPrefix tail prefix args = VString template :: rest.
Proof.
  destruct tail as [|x tail]; [eexists; eexists; reflexivity |].
  destruct x; eexists; eexists; reflexivity.
Qed.

(** X1.  [AddPrefix] always puts a string first, so [FormatPrefix]
    accepts its result whatever tail went in, also a tail on which
    [FormatPrefix] alone panics; an assertion given such a tail
    therefore returns the truth value of its condition and never panics
    on the message. *)
Theorem AddPrefix_never_panics {S : Type} `{Assert.TB S}
  (c : call) (tail : list value) (prefix : string) (args : list value) (s : S) :
  (exists p, Assert.FormatPrefix (Assert.AddPrefix tail prefix args) = Returned p) /\
  (forall b, condition c = Returned b ->
             fst (run c (Assert.AddPrefix tail prefix args) s) = Returned b).
Proof.
  destruct (AddPrefix_head tail prefix args) as (template & rest & E).
  assert (Hp : exists p,
             Assert.FormatPrefix (Assert.AddPrefix tail prefix args) = Returned p).
  { rewrite E. eexists. reflexivity. }
  split; [exact Hp |].
  intros b Hb. rewrite run_outcome. unfold behaviour. rewrite Hb.
  destruct b; [reflexivity |].
  destruct Hp as [p Hp]. now rewrite Hp.
Qed.

Lemma AddPrefix_never_panics_witness :
  exists v, Assert.FormatPrefix [VInt 42] = Panicked v /\
  fst (run (CallOK false) (Assert.AddPrefix [VInt 42] "case %d" [VInt 1])
         ([] : list event)) = Returned false.
Proof.
  eexists. split; [reflexivity |].
  apply (proj2 (AddPrefix_never_panics (CallOK false) [VInt 42] "case %d" [VInt 1] [])).
  reflexivity.
Defined.

(** X2.  Prefixing twice is prefixing once with the two prefixes
    joined by [": "] and the outer arguments first. *)
Theorem AddPrefix_nested (tail : list value) (inner : string) (innerArgs : list value)
  (outer : string) (outerArgs : list value) :
  Assert.AddPrefix (Assert.AddPrefix tail inner innerArgs) outer outerArgs =
  Assert.AddPrefix tail (outer ++ ": " ++ inner) (outerArgs ++ innerArgs).
Proof.
  unfold Assert.AddPrefix.
  destruct tail as [|x tail]; cbn [app].
  - rewrite !app_nil_r. reflexivity.
  - destruct x; cbn [app]; rewrite <- ?app_assoc; try reflexivity.
    now rewrite !append_assoc.
Qed.



(** X4.  A message without ['%'] becomes the prefix as it is; operands
    that follow it are not rejected but appended in the form [fmt]
    gives to surplus operands. *)
Theorem FormatPrefix_plain (msg : string) (rest : list value) :
  plain msg = true ->
  Assert.FormatPrefix (VString msg :: rest) = Returned (msg ++ extra rest ++ ": ") /\
  Assert.FormatPrefix [VString msg] = Returned (msg ++ ": ").
Proof.
  intro Hp. cbn [Assert.FormatPrefix].
  rewrite !Sprintf_plain by exact Hp. split.
  - now rewrite append_assoc.
  - cbn [extra]. now rewrite append_empty_r.
Qed.

Lemma FormatPrefix_plain_witness :
  Assert.FormatPrefix [VString "after login"; VInt 7] =
    Returned "after login%!(EXTRA int=7): " /\
  Assert.FormatPrefix [VString "after login"] = Returned "after login: ".
Proof. apply (FormatPrefix_plain "after login" [VInt 7]). reflexivity. Defined.

(** ** An assertion and its contrary *)

Lemma condition_opposite (c c' : call) :
  opposite c = Some c' ->
  condition c' =
    match condition c with
    | Returned b => Returned (negb b)
    | Panicked v => Panicked v
    end.
Proof.
  destruct c; intro E; try discriminate; injection E as <-;
    cbn [condition]; unfold go_ne;
    try match goal with
        | |- context [go_eq ?a ?b] => destruct (go_eq a b) as [[|]|]
        end;
    try match goal with
        | a : option (list _) |- _ => destruct a as [[|? ?]|]
        end;
    try match goal with
        | a : bool |- _ => destruct a
        end;
    try match goal with
        | a : Assert.pointer |- _ => destruct a
        end;
    try reflexivity; cbn; try now rewrite negb_involutive.
Qed.

(** X5.  Of an assertion and its contrary on the same operands, the
    two never both return true; when one returns false the other returns
    true; and when one returns true and the message tail is well formed,
    the other returns false. *)
Theorem contrary_assertions {S : Type} `{Assert.TB S}
  (c c' : call) (tail : list value) (s : S) :
  opposite c = Some c' ->
  (fst (run c tail s) = Returned true -> fst (run c' tail s) <> Returned true) /\
  (fst (run c tail s) = Returned false -> fst (run c' tail s) = Returned true) /\
  (forall p, Assert.FormatPrefix tail = Returned p ->
             fst (run c tail s) = Returned true ->
             fst (run c' tail s) = Returned false).
Proof.
  intro Ho. pose proof (condition_opposite c c' Ho) as Hc.
  rewrite !run_outcome. unfold behaviour. rewrite Hc.
  destruct (condition c) as [[|]|v], (Assert.FormatPrefix tail) as [q|w];
    cbn [negb fst]; repeat split; try discriminate; try reflexivity;
    intros; discriminate.
Qed.

Lemma contrary_assertions_witness :
  (fst (run (CallEmptySlice TInt (Some [VInt 1])) [] ([] : list event)) = Returned true ->
   fst (run (CallNonEmptySlice TInt (Some [VInt 1])) [] ([] : list event)) <> Returned true) /\
  (fst (run (CallEmptySlice TInt (Some [VInt 1])) [] ([] : list event)) = Returned false ->
   fst (run (CallNonEmptySlice TInt (Some [VInt 1])) [] ([] : list event)) = Returned true) /\
  (forall p, Assert.FormatPrefix [] = Returned p ->
             fst (run (CallEmptySlice TInt (Some [VInt 1])) [] ([] : list event)) = Returned true ->
             fst (run (CallNonEmptySlice TInt (Some [VInt 1])) [] ([] : list event)) = Returned false).
Proof.
  apply (contrary_assertions (CallEmptySlice TInt (Some [VInt 1]))
           (CallNonEmptySlice TInt (Some [VInt 1])) [] []).
  reflexivity.
Defined.

(** ** Where a panic can come from *)

Lemma condition_panics (c : call) (v : value) :
  condition c = Panicked v ->
  exists a b, compared c = Some (a, b) /\ go_eq a b = Panicked v.
Proof.
  destruct c; cbn [condition compared]; unfold go_ne; intro E;
    try discriminate;
    try (match goal with
         | _ : context [go_eq ?a ?b] |- _ =>
             exists a, b; split; [reflexivity |];
             revert E; destruct (go_eq a b); intro E; [discriminate E | exact E]
         end).
  - destruct a, e; discriminate E.
  - destruct (String.eqb e EmptyString), a; discriminate E.
  - destruct (captured f); discriminate E.
Qed.

(** X6.  No panic of [f] leaves [PanicMsg]: when [PanicMsg] panics, it
    is [FormatPrefix] panicking on the message tail. *)
Theorem PanicMsg_contains_the_panic {S : Type} `{Assert.TB S}
  (f : func) (e : string) (tail : list value) (s : S) (v : value) :
  fst (Assert.PanicMsg f e tail s) = Panicked v ->
  Assert.FormatPrefix tail = Panicked v.
Proof.
  change (Assert.PanicMsg f e tail s) with (run (CallPanicMsg f e) tail s).
  rewrite run_outcome. unfold behaviour.
  destruct (condition (CallPanicMsg f e)) as [[|]|w] eqn:Hc.
  - discriminate.
  - destruct (Assert.FormatPrefix tail); [discriminate |].
    cbn [fst]. intro E. now injection E as <-.
  - apply condition_panics in Hc as (a & b & Hab & _). discriminate.
Qed.

Lemma PanicMsg_contains_the_panic_witness :
  exists v,
    fst (Assert.PanicMsg panickyFunc "foo" [VInt 42] ([] : list event)) = Panicked v /\
    Assert.FormatPrefix [VInt 42] = Panicked v.
Proof.
  eexists. split; [reflexivity |].
  apply (PanicMsg_contains_the_panic panickyFunc "foo" [VInt 42] [] _ eq_refl).
Defined.



(** ** The test doubles *)

Lemma failure_marks_range (c : call) : failure_marks c = 1 \/ failure_marks c = 2.
Proof. destruct c; try (now left). destruct e; [now left | now right]. Qed.

(** What a run leaves in a reporter, by cases on the condition. *)
Lemma run_cases {S : Type} `{Assert.TB S} (c : call) (tail : list value) (s : S) :
  match condition c with
  | Panicked v => run c tail s = (Panicked v, s)
  | Returned true =>
      run c tail s = (Returned true, if marks_first c then Assert.Helper s else s)
  | Returned false =>
      match Assert.FormatPrefix tail with
      | Panicked v => fst (run c tail s) = Panicked v
      | Returned p =>
          exists format args,
            Sprintf format args = "** " ++ p ++ wording c /\
            run c tail s =
              (Returned false,
               replay (repeat EvHelper (failure_marks c) ++ [EvErrorf format args])%list s)
      end
  end.
Proof.
  pose proof (observed_run c tail) as E. unfold behaviour in E.
  pose proof (run_replay c tail s) as R.
  destruct (condition c) as [[|]|v].
  - apply observed_inv in E as [Hr Ht]. rewrite R, Hr.
    destruct (marks_first c).
    + apply (render_marks _ 1) in Ht. now rewrite Ht.
    + apply (render_marks _ 0) in Ht. now rewrite Ht.
  - destruct (Assert.FormatPrefix tail) as [p|v];
      apply observed_inv in E as [Hr Ht].
    + apply render_marks_report in Ht as (format & args & Ht & Hm).
      exists format, args. split; [exact Hm |]. now rewrite R, Hr, Ht.
    + now rewrite R, Hr.
  - apply observed_inv in E as [Hr Ht]. rewrite R, Hr.
    apply (render_marks _ 0) in Ht. now rewrite Ht.
Qed.

Lemma fake_after_failure (n : nat) (format : string) (args : list value)
  (wanted : string) :
  n = 1 \/ n = 2 ->
  fatals (verify (replay (repeat EvHelper n ++ [EvErrorf format args]) (fake wanted))) = []
  <-> wanted = Sprintf format args.
Proof.
  intros [-> | ->]; cbn [repeat app replay fold_left];
    cbn [Assert.Helper Assert.Errorf fakeTB_TB exited fatals fake helperCalled
         errorCalled expected];
    destruct (String.eqb_spec (Sprintf format args) wanted) as [E | E];
    cbn [negb verify Fatal fatals errorCalled helperCalled app];
    split; intro G; try reflexivity; try (now symmetry); try congruence.
Qed.

(** X8.  A test made of one assertion on [fake(t, wanted)] passes
    exactly when the assertion's condition fails, the message tail is
    well formed, and [wanted] is the documented message. *)
Theorem fake_accepts_exactly (c : call) (tail : list value) (wanted : string) :
  fake_test c tail wanted = true <->
  condition c = Returned false /\
  exists p, Assert.FormatPrefix tail = Returned p /\ wanted = "** " ++ p ++ wording c.
Proof.
  unfold fake_test.
  pose proof (run_cases c tail (fake wanted)) as R.
  destruct (condition c) as [[|]|v].
  - rewrite R. split; [| intros [? _]; discriminate].
    destruct (marks_first c); cbn; discriminate.
  - destruct (Assert.FormatPrefix tail) as [p|v].
    + destruct R as (format & args & Hm & R). rewrite R.
      pose proof (fake_after_failure _ format args wanted (failure_marks_range c)) as F.
      rewrite Hm in F.
      destruct (fatals (verify _)) eqn:Hf.
      * split; [| reflexivity]. intros _. split; [reflexivity |].
        exists p. split; [reflexivity |]. now apply F.
      * split; [discriminate |]. intros [_ (q & Hq & Hw)].
        injection Hq as <-. apply F in Hw. discriminate.
    + destruct (run c tail (fake wanted)) as [r f]. cbn [fst] in R. subst r.
      split; [discriminate |]. intros [_ (q & Hq & _)]. discriminate.
  - rewrite R. split; [discriminate | intros [? _]; discriminate].
Qed.

(** X9.  A test made of one assertion on [noerr(t)] passes exactly
    when the assertion's condition holds. *)
Theorem noerr_accepts_exactly (c : call) (tail : list value) :
  noerr_test c tail = true <-> condition c = Returned true.
Proof.
  unfold noerr_test.
  pose proof (run_cases c tail noerr) as R.
  destruct (condition c) as [[|]|v].
  - rewrite R. split; [reflexivity |]. intros _.
    destruct (marks_first c); reflexivity.
  - split; [| discriminate].
    destruct (Assert.FormatPrefix tail) as [p|v].
    + destruct R as (format & args & _ & R). rewrite R.
      destruct (failure_marks_range c) as [-> | ->]; discriminate.
    + destruct (run c tail noerr) as [r f]. cbn [fst] in R. subst r. discriminate.
  - rewrite R. split; discriminate.
Qed.

Example test_doubles :
  fake_test (CallEq (VInt 10) (VInt 42)) [] "** got 10, wanted 42" = true /\
  fake_test (CallEq (VInt 10) (VInt 42)) [] "** got 10, wanted 43" = false /\
  fake_test (CallEq (VInt 42) (VInt 42)) [] "** got 42, wanted 42" = false /\
  fake_test (CallError (Some ErrNotExist) None) [] "** failed: file does not exist" = true /\
  fatals (snd (run (CallEq (VInt 10) (VInt 42)) [] (fake "x"))) =
    ["incorrect error message, got:" ++ newline ++ tab ++ "** got 10, wanted 42"
     ++ newline ++ "wanted:" ++ newline ++ tab ++ "x"] /\
  fatals (verify (fake "x")) = ["Errorf not called"] /\
  noerr_test (CallOK true) [VString "with %v"; VNil] = true /\
  noerr_test (CallError None None) [] = true /\
  noerr_fatals (snd (run (CallOK false) [] noerr)) =
    ["unexpected error: ** got false, wanted true"].
Proof. repeat split. Qed.

(** ** Pointers, errors *)

Lemma gotype_eqb_refl (t : gotype) : gotype_eqb t t = true.
Proof.
  induction t; simpl; try reflexivity; try assumption.
  now rewrite IHt1, IHt2.
Qed.



(** X10.  On a pointer, [Zero] returns what [Nil] returns and [NonZero]
    what [NonNil] returns, or they panic alike on the message tail. *)
Theorem Zero_on_pointers_is_Nil {S : Type} `{Assert.TB S}
  (T : gotype) (a : Assert.pointer) (tail : list value) (s : S) :
  fst (Assert.Zero (TPtr T) (VPtr T a) tail s) = fst (Assert.Nil T a tail s) /\
  fst (Assert.NonZero (TPtr T) (VPtr T a) tail s) = fst (Assert.NonNil T a tail s).
Proof.
  change (Assert.Zero (TPtr T) (VPtr T a) tail s)
    with (run (CallZero (TPtr T) (VPtr T a)) tail s).
  change (Assert.Nil T a tail s) with (run (CallNil T a) tail s).
  change (Assert.NonZero (TPtr T) (VPtr T a) tail s)
    with (run (CallNonZero (TPtr T) (VPtr T a)) tail s).
  change (Assert.NonNil T a tail s) with (run (CallNonNil T a) tail s).
  rewrite !run_outcome. unfold behaviour.
  cbn [condition zero_value go_eq go_ne]. rewrite gotype_eqb_refl.
  destruct a as [[addr x]|]; cbn; destruct (Assert.FormatPrefix tail); split; reflexivity.
Qed.

(** X11.  No expected text makes [ErrorMsg] succeed on a non-nil error
    whose text is empty: the empty expected text asks for no error. *)
Theorem ErrorMsg_silent_error {S : Type} `{Assert.TB S}
  (a : error) (e : string) (tail : list value) (s : S) :
  error_Error a = EmptyString ->
  fst (Assert.ErrorMsg (Some a) e tail s) <> Returned true.
Proof.
  intro Ha.
  change (Assert.ErrorMsg (Some a) e tail s) with (run (CallErrorMsg (Some a) e) tail s).
  rewrite run_outcome. unfold behaviour. cbn [condition absent]. rewrite Ha.
  destruct e as [|c e]; cbn; destruct (Assert.FormatPrefix tail); discriminate.
Qed.

Lemma ErrorMsg_silent_error_witness :
  fst (Assert.ErrorMsg (Some silent) EmptyString [] ([] : list event)) <> Returned true.
Proof.
  apply (ErrorMsg_silent_error silent EmptyString [] []). reflexivity.
Defined.


